(** * convert_mask_to_npy.py: PNG mask to annotation array-file

    A shallow embedding of [src/convert_mask_to_npy.py] and the properties
    its specification states about it.

    The program is a thin pipeline over library calls.  The calls are
    embedded with the behaviour the libraries document:
    - NumPy arrays are a shape with a row-major buffer ([ndarray]);
    - the file system, the wall clock and the console are fields of an
      explicit [World], threaded through a state-and-exception monad [M];
    - [skimage.measure.find_contours] and the [np.save]/[np.load] payload
      encoding are third-party code that is not part of the repository;
      their models are marked as such where they are defined. *)

From Stdlib Require Import ZArith Lia List Ascii String.
From Stdlib Require Import Strings.Byte.
From Stdlib Require Import Floats.SpecFloat.
From stdpp Require Import gmap strings list pretty.

Local Open Scope Z_scope.

(** ** NumPy data *)

(** Element types of the arrays the program touches. *)
Inductive dtype :=
  | bool_ | uint8 | uint16 | int32 | int64 | float32 | float64 | object_.

(** A numeric array element.  PIL yields boolean (mode 1), integer
    (modes L, P, I, I;16, RGB...) or floating (mode F) samples. *)
Inductive scalar :=
  | SBool (b : bool)
  | SInt (z : Z)
  | SFloat (f : spec_float).

(** An n-dimensional array: element type, shape and row-major buffer. *)
Record ndarray (A : Type) := mk_ndarray {
  nd_dtype : dtype;
  shape : list nat;
  data : list A
}.
Arguments mk_ndarray {A} _ _ _.
Arguments nd_dtype {A} _.
Arguments shape {A} _.
Arguments data {A} _.

(** Number of elements a shape announces. *)
Definition size_of (sh : list nat) : nat := foldr Nat.mul 1%nat sh.

(** The buffer holds exactly the elements the shape announces. *)
Definition well_shaped {A} (a : ndarray A) : Prop :=
  length (data a) = size_of (shape a).

(** Row-major offset of a multi-index, [None] when the index has the wrong
    rank or a component is out of bounds. *)
Fixpoint flat_index (sh idx : list nat) : option nat :=
  match sh, idx with
  | [], [] => Some 0%nat
  | n :: sh', i :: idx' =>
      if (i <? n)%nat
      then match flat_index sh' idx' with
           | Some k => Some (i * size_of sh' + k)%nat
           | None => None
           end
      else None
  | _, _ => None
  end.

(** [a[i, j, ...]] *)
Definition nd_get {A} (a : ndarray A) (idx : list nat) : option A :=
  match flat_index (shape a) idx with
  | Some k => data a !! k
  | None => None
  end.

(** Element-wise application, keeping the shape. *)
Definition nd_map {A B} (dt : dtype) (f : A -> B) (a : ndarray A) : ndarray B :=
  mk_ndarray dt (shape a) (f <$> data a).

Definition float_zero : spec_float := S754_zero false.

(** [x > 0] on one element.  A NaN compares false. *)
Definition gt_zero (x : scalar) : bool :=
  match x with
  | SBool b => b
  | SInt z => 0 <? z
  | SFloat f => SFltb float_zero f
  end.

(** [mask_array > 0]: a boolean array of the same shape. *)
Definition np_greater_zero (a : ndarray scalar) : ndarray scalar :=
  nd_map bool_ (fun x => SBool (gt_zero x)) a.

Definition INT64_MIN : Z := - 2 ^ 63.
Definition INT64_MAX : Z := 2 ^ 63 - 1.

(** Magnitude of a finite float with mantissa [m] and exponent [e], with the
    fractional bits dropped. *)
Definition truncated_magnitude (m : positive) (e : Z) : Z :=
  if 0 <=? e then Z.shiftl (Z.pos m) e else Z.shiftr (Z.pos m) (- e).

(** [x.astype(int)] on one float64 element: the C conversion to a 64-bit
    integer (NumPy's default integer where the C [long] has 64 bits), which
    drops the fractional part.  NaN, the infinities and magnitudes outside
    the 64-bit range have no defined result in C; x86-64 delivers the most
    negative integer, which is what is modelled. *)
Definition astype_int (f : spec_float) : Z :=
  match f with
  | S754_zero _ => 0
  | S754_finite s m e =>
      let mag := truncated_magnitude m e in
      let v := if s then - mag else mag in
      if (INT64_MIN <=? v) && (v <=? INT64_MAX) then v else INT64_MIN
  | S754_infinity _ | S754_nan => INT64_MIN
  end.

(** [.astype(np.uint8)] on one element. *)
Definition to_uint8 (x : scalar) : scalar :=
  match x with
  | SBool b => SInt (if b then 1 else 0)
  | SInt z => SInt (z mod 256)
  | SFloat f => SInt (astype_int f mod 256)
  end.

Definition astype_uint8 (a : ndarray scalar) : ndarray scalar :=
  nd_map uint8 to_uint8 a.

(** Total order used by [np.unique]: booleans, then integers, then floats,
    NaN last; equal numbers compare [Eq] (so do [-0.0] and [0.0], and two
    NaNs). *)
Definition scalar_compare (x y : scalar) : comparison :=
  match x, y with
  | SBool a, SBool b => Z.compare (if a then 1 else 0) (if b then 1 else 0)
  | SBool _, _ => Lt
  | SInt _, SBool _ => Gt
  | SInt a, SInt b => Z.compare a b
  | SInt _, SFloat _ => Lt
  | SFloat f, SFloat g =>
      match SFcompare f g with
      | Some c => c
      | None =>
          match f, g with
          | S754_nan, S754_nan => Eq
          | S754_nan, _ => Gt
          | _, _ => Lt
          end
      end
  | SFloat _, _ => Gt
  end.

(** Insert into a sorted duplicate-free list. *)
Fixpoint insert_unique (x : scalar) (l : list scalar) : list scalar :=
  match l with
  | [] => [x]
  | y :: l' =>
      match scalar_compare x y with
      | Lt => x :: y :: l'
      | Eq => y :: l'
      | Gt => y :: insert_unique x l'
      end
  end.

(** [np.unique(a)]: the sorted distinct elements of the flattened array. *)
Definition np_unique (a : ndarray scalar) : list scalar :=
  foldr insert_unique [] (data a).

(** The thresholding expression [(mask_array > 0).astype(np.uint8)] of
    lines 37 and 40. *)
Definition threshold (mask_array : ndarray scalar) : ndarray scalar :=
  astype_uint8 (np_greater_zero mask_array).

(** ** Python strings and [os.path] *)

(** [s.rfind(c)] for a one-character [c], counting from index [i] at the
    head of [s]: the highest index holding [c], or [-1]. *)
Fixpoint rfind_from (c : ascii) (s : string) (i : Z) : Z :=
  match s with
  | EmptyString => -1
  | String a r =>
      let k := rfind_from c r (i + 1) in
      if 0 <=? k then k else if Ascii.eqb a c then i else -1
  end.

Definition rfind (c : ascii) (s : string) : Z := rfind_from c s 0.

(** The slices [s[n:]] and [s[:n]] for [n >= 0]. *)
Fixpoint str_drop (n : nat) (s : string) : string :=
  match n, s with
  | O, _ => s
  | S k, EmptyString => EmptyString
  | S k, String _ r => str_drop k r
  end.

Fixpoint str_take (n : nat) (s : string) : string :=
  match n, s with
  | O, _ => EmptyString
  | S k, EmptyString => EmptyString
  | S k, String a r => String a (str_take k r)
  end.

(** [s.endswith(suffix)] *)
Definition endswith (s suffix : string) : bool :=
  (String.length suffix <=? String.length s)%nat
  && String.eqb (str_drop (String.length s - String.length suffix) s) suffix.

Definition sep : ascii := "/"%char.
Definition extsep : ascii := "."%char.

(** [posixpath.basename]: [i = p.rfind(sep) + 1; return p[i:]]. *)
Definition basename (p : string) : string :=
  let i := rfind sep p + 1 in
  str_drop (Z.to_nat i) p.

(** The loop of [genericpath._splitext] that skips leading dots: starting at
    [filenameIndex], with [steps] positions left before [dotIndex], is there
    a character other than the dot? *)
Fixpoint splitext_scan (p : string) (filenameIndex steps : nat) : bool :=
  match steps with
  | O => false
  | S k =>
      match String.get filenameIndex p with
      | Some a =>
          if Ascii.eqb a extsep
          then splitext_scan p (S filenameIndex) k
          else true
      | None => true
      end
  end.

(** [posixpath.splitext]: split the extension off the last component; a
    component made of leading dots only has no extension. *)
Definition splitext (p : string) : string * string :=
  let sepIndex := rfind sep p in
  let dotIndex := rfind extsep p in
  if (sepIndex <? dotIndex)
     && splitext_scan p (Z.to_nat (sepIndex + 1))
          (Z.to_nat (dotIndex - (sepIndex + 1)))
  then (str_take (Z.to_nat dotIndex) p, str_drop (Z.to_nat dotIndex) p)
  else (p, EmptyString).

(** Lines 76-78: the output path, defaulted from the input's base name only
    when the caller passed none. *)
Definition determine_output_path (png_path : string) (output_path : option string)
  : string :=
  match output_path with
  | None =>
      let base_name := fst (splitext (basename png_path)) in
      base_name +:+ "_seg.npy"
  | Some given => given
  end.

(** ** The annotation record and its on-disk form *)

(** A Python object held by the annotation list: a [str], or a list of
    one-dimensional integer arrays (one array per contour). *)
Inductive pyobj :=
  | PStr (s : string)
  | PList (items : list (list Z)).

Definition parser (A : Type) : Type := list byte -> option (A * list byte).

Definition byte_of_Z (z : Z) : byte := default x00 (Byte.of_N (Z.to_N z)).
Definition Z_of_byte (b : byte) : Z := Z.of_N (Byte.to_N b).

(** [n] little-endian bytes of a non-negative integer. *)
Fixpoint le_bytes (n : nat) (z : Z) : list byte :=
  match n with
  | O => []
  | S k => byte_of_Z (z mod 256) :: le_bytes k (z / 256)
  end.

Fixpoint le_value (bs : list byte) : Z :=
  match bs with
  | [] => 0
  | b :: r => Z_of_byte b + 256 * le_value r
  end.

(** A 64-bit two's-complement integer, little-endian. *)
Definition encode_int64 (z : Z) : list byte := le_bytes 8 (z mod 2 ^ 64).

Definition decode_int64 : parser Z := fun bs =>
  if (8 <=? length bs)%nat
  then let u := le_value (take 8 bs) in
       Some (if u <? 2 ^ 63 then u else u - 2 ^ 64, drop 8 bs)
  else None.

Definition encode_char (a : ascii) : list byte := [byte_of_ascii a].

Definition decode_char : parser ascii := fun bs =>
  match bs with
  | b :: r => Some (ascii_of_byte b, r)
  | [] => None
  end.

Definition encode_dim (n : nat) : list byte := encode_int64 (Z.of_nat n).

Definition decode_dim : parser nat := fun bs =>
  match decode_int64 bs with
  | Some (z, r) => if 0 <=? z then Some (Z.to_nat z, r) else None
  | None => None
  end.

Section Sequences.
Context {A : Type}.
Variable enc : A -> list byte.
Variable dec : parser A.

(** A sequence is written item by item, each item announced by a [01]
    byte, and closed by a [00] byte. *)
Fixpoint encode_seq (l : list A) : list byte :=
  match l with
  | [] => [x00]
  | x :: l' => x01 :: enc x ++ encode_seq l'
  end.

(** Reading back; every item read consumes at least its announcing byte,
    so [fuel] above the number of remaining bytes is never exhausted. *)
Fixpoint decode_seq_fuel (fuel : nat) (bs : list byte) : option (list A * list byte) :=
  match fuel with
  | O => None
  | S k =>
      match bs with
      | x00 :: r => Some ([], r)
      | x01 :: r =>
          match dec r with
          | Some (x, r') =>
              match decode_seq_fuel k r' with
              | Some (l, r'') => Some (x :: l, r'')
              | None => None
              end
          | None => None
          end
      | _ => None
      end
  end.

Definition decode_seq : parser (list A) := fun bs =>
  decode_seq_fuel (S (length bs)) bs.
End Sequences.

Definition string_of_chars (l : list ascii) : string := string_of_list_ascii l.
Definition chars_of_string (s : string) : list ascii := list_ascii_of_string s.

Definition encode_pyobj (o : pyobj) : list byte :=
  match o with
  | PStr s => x53 :: encode_seq encode_char (chars_of_string s)
  | PList items => x4c :: encode_seq (encode_seq encode_int64) items
  end.

Definition decode_pyobj : parser pyobj := fun bs =>
  match bs with
  | x53 :: r =>
      match decode_seq decode_char r with
      | Some (cs, r') => Some (PStr (string_of_chars cs), r')
      | None => None
      end
  | x4c :: r =>
      match decode_seq (decode_seq decode_int64) r with
      | Some (items, r') => Some (PList items, r')
      | None => None
      end
  | _ => None
  end.

Definition dtype_code (d : dtype) : byte :=
  match d with
  | bool_ => x00 | uint8 => x01 | uint16 => x02 | int32 => x03
  | int64 => x04 | float32 => x05 | float64 => x06 | object_ => x07
  end.

Definition decode_dtype : parser dtype := fun bs =>
  match bs with
  | x00 :: r => Some (bool_, r) | x01 :: r => Some (uint8, r)
  | x02 :: r => Some (uint16, r) | x03 :: r => Some (int32, r)
  | x04 :: r => Some (int64, r) | x05 :: r => Some (float32, r)
  | x06 :: r => Some (float64, r) | x07 :: r => Some (object_, r)
  | _ => None
  end.

(** The six magic bytes every [.npy] file starts with: [\x93NUMPY]. *)
Definition npy_magic : list byte := [x93; x4e; x55; x4d; x50; x59].

(** Modelled from the spec: the payload encoding of [np.save] and [np.load]
    (NumPy and pickle, neither part of the repository).  Section 4.5 asks
    for "a binary format that preserves arbitrary nested structure" and
    section 9 leaves the exact bytes open; the model writes the magic, the
    element type, the shape and the elements as nested delimited
    sequences. *)
Definition encode_npy (a : ndarray pyobj) : list byte :=
  npy_magic ++ [dtype_code (nd_dtype a)]
  ++ encode_seq encode_dim (shape a)
  ++ encode_seq encode_pyobj (data a).

(** Modelled from the spec: the reader matching [encode_npy]; it accepts a
    file only when nothing follows the elements. *)
Definition decode_npy (bs : list byte) : option (ndarray pyobj) :=
  match bs with
  | x93 :: x4e :: x55 :: x4d :: x50 :: x59 :: r0 =>
      match decode_dtype r0 with
      | Some (dt, r1) =>
          match decode_seq decode_dim r1 with
          | Some (sh, r2) =>
              match decode_seq decode_pyobj r2 with
              | Some (elems, []) => Some (mk_ndarray dt sh elems)
              | _ => None
              end
          | None => None
          end
      | None => None
      end
  | _ => None
  end.

(** ** Exceptions *)

(** The exceptions the modelled calls raise; all are subclasses of Python's
    [Exception]. *)
Inductive exn :=
  | FileNotFoundError (path : string)
  | PermissionError (path : string)
  | UnidentifiedImageError (path : string)
  | UnpicklingError (path : string)
  | ValueError (msg : string)
  | IndexError (msg : string)
  | TypeError (msg : string)
  | AttributeError (msg : string).

Inductive result (A : Type) :=
  | Ok (a : A)
  | Raise (e : exn).
Arguments Ok {A} _.
Arguments Raise {A} _.

(** ** Contour extraction

    The definitions of this part make up the model of scikit-image's
    contour finder, [find_contours] below. *)

(** A contour vertex in half-pixel units, as (row, column). *)
Definition point : Type := Z * Z.
Definition segment : Type := point * point.

(** A contour as the program receives it: the rows of an (N, 2) float64
    array, each a (row, column) pair. *)
Definition contour : Type := list (spec_float * spec_float).

Definition float_half : spec_float := S754_finite false (2 ^ 52) (- 53).

(** [value > 0.5] for one mask element. *)
Definition above_level (x : scalar) : bool :=
  match x with
  | SBool b => b
  | SInt z => 0 <? z
  | SFloat f => SFltb float_half f
  end.

(** [image[r, c]] inside the scan, where the index is in range. *)
Definition pixel_above (image : ndarray scalar) (r c : nat) : bool :=
  match nd_get image [r; c] with
  | Some v => above_level v
  | None => false
  end.

(** Position of the 0.5 crossing along an edge between two mask values, in
    half pixels: no offset when both ends agree, else the midpoint. *)
Definition get_fraction (from_above to_above : bool) : Z :=
  if Bool.eqb from_above to_above then 0 else 1.

(** The segments marching squares emits for the 2x2 square whose upper-left
    corner is [(r0, c0)], with the low-connectivity choice at saddles. *)
Definition square_segments (ul ur ll lr : bool) (r0 c0 : Z) : list segment :=
  let square_case :=
    (if ul then 1 else 0) + (if ur then 2 else 0)
    + (if ll then 4 else 0) + (if lr then 8 else 0) in
  let r1 := r0 + 1 in
  let c1 := c0 + 1 in
  let top := (2 * r0, 2 * c0 + get_fraction ul ur) in
  let bottom := (2 * r1, 2 * c0 + get_fraction ll lr) in
  let left := (2 * r0 + get_fraction ul ll, 2 * c0) in
  let right := (2 * r0 + get_fraction ur lr, 2 * c1) in
  match square_case with
  | 1 => [(top, left)]
  | 2 => [(right, top)]
  | 3 => [(right, left)]
  | 4 => [(left, bottom)]
  | 5 => [(top, bottom)]
  | 6 => [(right, top); (left, bottom)]
  | 7 => [(right, bottom)]
  | 8 => [(bottom, right)]
  | 9 => [(top, left); (bottom, right)]
  | 10 => [(bottom, top)]
  | 11 => [(bottom, left)]
  | 12 => [(left, right)]
  | 13 => [(top, right)]
  | 14 => [(left, top)]
  | _ => []
  end.

(** Row-major scan over all 2x2 squares of an [rows] x [cols] grid. *)
Definition get_contour_segments (image : ndarray scalar) (rows cols : nat)
  : list segment :=
  r0 ← seq 0 (rows - 1);
  c0 ← seq 0 (cols - 1);
  square_segments
    (pixel_above image r0 c0) (pixel_above image r0 (S c0))
    (pixel_above image (S r0) c0) (pixel_above image (S r0) (S c0))
    (Z.of_nat r0) (Z.of_nat c0).

(** The dictionaries of the segment assembler.  A polyline is shared
    between [contours], [starts] and [ends] in the original; here the two
    indices hold the polyline's number and [contours] holds its points. *)
Record assembly := mk_assembly {
  current_index : nat;
  contours_of : gmap nat (list point);
  starts : gmap point nat;
  ends : gmap point nat
}.

Definition polyline (st : assembly) (num : nat) : list point :=
  default [] (contours_of st !! num).

Definition first_point (l : list point) : point := default (0, 0) (head l).
Definition last_point (l : list point) : point := default (0, 0) (last l).

(** One segment joins the polyline starting at its end point and the one
    ending at its start point, extends one of them, or opens a new one. *)
Definition assemble_step (st : assembly) (s : segment) : assembly :=
  let '(from_point, to_point) := s in
  if decide (from_point = to_point) then st else
  let tail := starts st !! to_point in
  let head := ends st !! from_point in
  let starts' := delete to_point (starts st) in
  let ends' := delete from_point (ends st) in
  match tail, head with
  | Some tail_num, Some head_num =>
      if decide (tail_num = head_num) then
        mk_assembly (current_index st)
          (<[head_num := polyline st head_num ++ [to_point]]> (contours_of st))
          starts' ends'
      else if decide (head_num < tail_num)%nat then
        let joined := polyline st head_num ++ polyline st tail_num in
        mk_assembly (current_index st)
          (delete tail_num (<[head_num := joined]> (contours_of st)))
          (<[first_point joined := head_num]> starts')
          (<[last_point joined := head_num]> ends')
      else
        let joined := polyline st head_num ++ polyline st tail_num in
        mk_assembly (current_index st)
          (delete head_num (<[tail_num := joined]> (contours_of st)))
          (<[first_point joined := tail_num]>
             (delete (first_point (polyline st head_num)) starts'))
          (<[last_point joined := tail_num]> ends')
  | None, None =>
      mk_assembly (S (current_index st))
        (<[current_index st := [from_point; to_point]]> (contours_of st))
        (<[from_point := current_index st]> starts')
        (<[to_point := current_index st]> ends')
  | Some tail_num, None =>
      mk_assembly (current_index st)
        (<[tail_num := from_point :: polyline st tail_num]> (contours_of st))
        (<[from_point := tail_num]> starts') ends'
  | None, Some head_num =>
      mk_assembly (current_index st)
        (<[head_num := polyline st head_num ++ [to_point]]> (contours_of st))
        starts' (<[to_point := head_num]> ends')
  end.

(** Half-pixel coordinate to the float64 it denotes. *)
Definition half_to_float (h : Z) : spec_float :=
  binary_normalize 53 1024 h (- 1) false.

(** A polyline as the float64 array handed to the caller. *)
Definition to_contour (pts : list point) : contour :=
  map (fun p : point => (half_to_float (fst p), half_to_float (snd p))) pts.

(** The polylines that remain, in order of creation. *)
Definition sorted_contours (st : assembly) : list (list point) :=
  omap (fun num => contours_of st !! num) (seq 0 (current_index st)).

Definition assemble_contours (segments : list segment) : list contour :=
  let st := foldl assemble_step (mk_assembly 0 ∅ ∅ ∅) segments in
  map to_contour (sorted_contours st).

(** Modelled from the spec: [skimage.measure.find_contours(image, 0.5)]
    (scikit-image, not part of the repository).  Section 4.3 describes
    marching squares at the 0.5 level producing polylines of (row, column)
    coordinates between 0-valued and 1-valued regions, scanned row-major;
    the model follows that routine on a 0/1 grid, where every crossing lies
    at an edge midpoint.  The guard in front of the scan is the library's
    own and is not mentioned by the specification: an array smaller than
    2x2, or one that is not two-dimensional, is refused with an error. *)
Definition find_contours (image : ndarray scalar) : result (list contour) :=
  match shape image with
  | rows :: cols :: rest =>
      if (rows <? 2)%nat || (cols <? 2)%nat
      then Raise (ValueError "Input array must be at least 2x2.")
      else match rest with
           | [] => Ok (assemble_contours (get_contour_segments image rows cols))
           | _ :: _ => Raise (ValueError "Only 2D arrays are supported.")
           end
  | _ => Raise (IndexError "tuple index out of range")
  end.

(** ** The world the program runs in *)

(** What [datetime.now()] reads. *)
Record datetime := mk_datetime {
  year : nat; month : nat; day : nat;
  hour : nat; minute : nat; second : nat
}.

(** A zero-padded two-digit field ([%m], [%d], [%H], [%M], [%S]). *)
Definition two_digits (n : nat) : string :=
  if (n <? 10)%nat then "0" +:+ pretty n else pretty n.

(** [t.strftime("%m/%d/%Y, %H:%M:%S")] *)
Definition strftime (t : datetime) : string :=
  two_digits (month t) +:+ "/" +:+ two_digits (day t) +:+ "/"
  +:+ pretty (year t) +:+ ", "
  +:+ two_digits (hour t) +:+ ":" +:+ two_digits (minute t) +:+ ":"
  +:+ two_digits (second t).

(** A file on disk.  Image decoding (PIL) is not modelled: an image file is
    given by its size and the array [np.array(Image.open(path))] yields. *)
Inductive file :=
  | ImageFile (size : nat) (pixels : ndarray scalar)
  | DataFile (bytes : list byte).

Definition file_size (f : file) : nat :=
  match f with
  | ImageFile size _ => size
  | DataFile bytes => length bytes
  end.

(** A value the verification step of [main] handles. *)
Inductive pyvalue :=
  | VObj (o : pyobj)
  | VArr (a : ndarray pyobj)
  | VInts (l : list Z)
  | VInt (z : Z).

(** One record per [print] call of the source (and one for the traceback),
    carrying the interpolated values. *)
Inductive output :=
  | OutLoading (png_path : string)
  | OutMaskShape (sh : list nat)
  | OutMaskDtype (d : dtype)
  | OutUniqueValues (vs : list scalar)
  | OutBinaryDetected
  | OutNonBinaryDetected
  | OutFoundContours (n : nat)
  | OutContour (number points : nat)
  | OutSaving (output_path : string)
  | OutComplete (output_path : string)
  | OutFileSize (bytes : nat)
  | OutRule
  | OutProcessing (png_path : string)
  | OutFileNotFound (png_path : string)
  | OutSuccess (png_path output_file : string)
  | OutVerifying
  | OutLoadedShape (sh : list nat)
  | OutLoadedDtype (d : dtype)
  | OutNumAnnotations (n : nat)
  | OutTimestamp (v : pyvalue)
  | OutAction (v : pyvalue)
  | OutNumContours (n : nat)
  | OutConversionError (png_path : string) (e : exn)
  | OutTraceback (e : exn)
  | OutAllCompleted.

(** Files, paths that refuse writing, the clock, and the console (standard
    output and standard error interleaved, oldest line first). *)
Record World := mk_World {
  fs : gmap string file;
  write_protected : gset string;
  now : datetime;
  console : list output
}.

(** ** Computations: state and exceptions *)

Definition M (A : Type) : Type := World -> result A * World.

Definition ret {A} (a : A) : M A := fun w => (Ok a, w).

Definition bind {A B} (m : M A) (k : A -> M B) : M B := fun w =>
  match m w with
  | (Ok a, w') => k a w'
  | (Raise e, w') => (Raise e, w')
  end.

Definition raise {A} (e : exn) : M A := fun w => (Raise e, w).

Definition lift {A} (r : result A) : M A := fun w => (r, w).

(** [try: body / except Exception as e: handler(e)] *)
Definition try_except {A} (body : M A) (handler : exn -> M A) : M A := fun w =>
  match body w with
  | (Ok a, w') => (Ok a, w')
  | (Raise e, w') => handler e w'
  end.

#[global] Instance M_ret : MRet M := @ret.
#[global] Instance M_bind : MBind M := fun A B k m => bind m k.

(** The world after more lines reached the console. *)
Definition with_console (w : World) (lines : list output) : World :=
  mk_World (fs w) (write_protected w) (now w) (console w ++ lines).

(** [print(...)] *)
Definition print (o : output) : M unit := fun w => (Ok tt, with_console w [o]).

(** [for x in xs: body(x)]; an exception leaves the loop. *)
Fixpoint for_each {A} (xs : list A) (body : A -> M unit) : M unit :=
  match xs with
  | [] => ret tt
  | x :: xs' => body x;; for_each xs' body
  end.

(** ** Library calls with effects *)

(** [os.path.exists(path)] *)
Definition os_path_exists (path : string) : M bool := fun w =>
  (Ok (bool_decide (is_Some (fs w !! path))), w).

(** [os.path.getsize(path)] *)
Definition os_path_getsize (path : string) : M nat := fun w =>
  match fs w !! path with
  | Some f => (Ok (file_size f), w)
  | None => (Raise (FileNotFoundError path), w)
  end.

(** [np.array(Image.open(path))] *)
Definition image_open_array (path : string) : M (ndarray scalar) := fun w =>
  match fs w !! path with
  | Some (ImageFile _ pixels) => (Ok pixels, w)
  | Some (DataFile _) => (Raise (UnidentifiedImageError path), w)
  | None => (Raise (FileNotFoundError path), w)
  end.

(** [datetime.now().strftime("%m/%d/%Y, %H:%M:%S")] *)
Definition strftime_now : M string := fun w => (Ok (strftime (now w)), w).

(** The file [np.save] opens: a [.npy] extension is appended to a file name
    that does not already end with it. *)
Definition npy_file_name (file : string) : string :=
  if endswith file ".npy" then file else file +:+ ".npy".

(** [np.save(file, arr, allow_pickle=True)]: creates or overwrites the
    target. *)
Definition np_save (file : string) (arr : ndarray pyobj) : M unit := fun w =>
  let target := npy_file_name file in
  if decide (target ∈ write_protected w)
  then (Raise (PermissionError target), w)
  else (Ok tt,
        mk_World (<[target := DataFile (encode_npy arr)]> (fs w))
          (write_protected w) (now w) (console w)).

(** [np.load(file, allow_pickle=True)] *)
Definition np_load (file : string) : M (ndarray pyobj) := fun w =>
  match fs w !! file with
  | Some (DataFile bytes) =>
      match decode_npy bytes with
      | Some arr => (Ok arr, w)
      | None => (Raise (UnpicklingError file), w)
      end
  | Some (ImageFile _ _) => (Raise (UnpicklingError file), w)
  | None => (Raise (FileNotFoundError file), w)
  end.

(** [len(v)] *)
Definition py_len (v : pyvalue) : result nat :=
  match v with
  | VObj (PStr s) => Ok (String.length s)
  | VObj (PList items) => Ok (length items)
  | VArr a =>
      match shape a with
      | n :: _ => Ok n
      | [] => Raise (TypeError "len() of unsized object")
      end
  | VInts l => Ok (length l)
  | VInt _ => Raise (TypeError "object has no len()")
  end.

(** [v[i]] for a non-negative [i]. *)
Definition py_getitem (v : pyvalue) (i : nat) : result pyvalue :=
  match v with
  | VObj (PStr s) =>
      match String.get i s with
      | Some a => Ok (VObj (PStr (String a EmptyString)))
      | None => Raise (IndexError "string index out of range")
      end
  | VObj (PList items) =>
      match items !! i with
      | Some l => Ok (VInts l)
      | None => Raise (IndexError "list index out of range")
      end
  | VArr a =>
      match shape a with
      | [] => Raise (IndexError "too many indices for array")
      | n :: rest =>
          if (i <? n)%nat then
            match rest with
            | [] =>
                match data a !! i with
                | Some o => Ok (VObj o)
                | None => Raise (IndexError "index out of bounds")
                end
            | _ :: _ =>
                Ok (VArr (mk_ndarray (nd_dtype a) rest
                            (take (size_of rest) (drop (i * size_of rest) (data a)))))
            end
          else Raise (IndexError "index out of bounds")
      end
  | VInts l =>
      match l !! i with
      | Some z => Ok (VInt z)
      | None => Raise (IndexError "index out of bounds")
      end
  | VInt _ => Raise (IndexError "invalid index to scalar variable")
  end.

(** ** The program *)

(** Line 37: the branch taken when the image has exactly two distinct
    values. *)
Definition binary_branch (mask_array : ndarray scalar) : M (ndarray scalar) :=
  print OutBinaryDetected;;
  mret (threshold mask_array).

(** Line 40: the branch taken otherwise. *)
Definition non_binary_branch (mask_array : ndarray scalar) : M (ndarray scalar) :=
  print OutNonBinaryDetected;;
  mret (threshold mask_array).

(** Lines 34-40. *)
Definition binarizer (mask_array : ndarray scalar) : M (ndarray scalar) :=
  if (length (np_unique mask_array) =? 2)%nat
  then binary_branch mask_array
  else non_binary_branch mask_array.

(** [annotation[i].append(x)] *)
Definition append_at (i : nat) (x : list Z) (annotation : list pyobj)
  : result (list pyobj) :=
  match annotation !! i with
  | Some (PList items) => Ok (<[i := PList (items ++ [x])]> annotation)
  | Some (PStr _) => Raise (AttributeError "'str' object has no attribute 'append'")
  | None => Raise (IndexError "list index out of range")
  end.

(** [contour[:, 0].astype(int)] and [contour[:, 1].astype(int)] *)
Definition y_coords_of (c : contour) : list Z := map (fun p => astype_int (fst p)) c.
Definition x_coords_of (c : contour) : list Z := map (fun p => astype_int (snd p)) c.

(** Lines 61-70, from the [i]-th contour on. *)
Fixpoint annotation_loop (i : nat) (contours : list contour) (annotation : list pyobj)
  : M (list pyobj) :=
  match contours with
  | [] => mret annotation
  | contour :: rest =>
      let y_coords := y_coords_of contour in
      let x_coords := x_coords_of contour in
      annotation ← lift (append_at 2 x_coords annotation);
      annotation ← lift (append_at 3 y_coords annotation);
      print (OutContour (i + 1) (length x_coords));;
      annotation_loop (S i) rest annotation
  end.

(** [np.array([annotation], dtype=object)]: the row starts with a [str],
    which NumPy keeps as one element, so the result has one row of
    [len(annotation)] objects. *)
Definition np_array_object (annotation : list pyobj) : ndarray pyobj :=
  mk_ndarray object_ [1; length annotation]%nat annotation.

(** Lines 53-73: the annotation packer. *)
Definition build_annotation (current_time : string) (contours : list contour)
  : M (ndarray pyobj) :=
  let annotation :=
    [PStr current_time; PStr "converted from PNG"; PList []; PList []] in
  annotation ← annotation_loop 0 contours annotation;
  mret (np_array_object annotation).

(** Lines 42-87: everything after the binarizer. *)
Definition pack_and_save (png_path : string) (output_path : option string)
    (binary_mask : ndarray scalar) : M string :=
  contours ← lift (find_contours binary_mask);
  print (OutFoundContours (length contours));;
  current_time ← strftime_now;
  final_array ← build_annotation current_time contours;
  let output_path := determine_output_path png_path output_path in
  print (OutSaving output_path);;
  np_save output_path final_array;;
  print (OutComplete output_path);;
  size ← os_path_getsize output_path;
  print (OutFileSize size);;
  mret output_path.

(** Lines 24-31: load the image and report on it. *)
Definition load_mask (png_path : string) : M (ndarray scalar) :=
  print (OutLoading png_path);;
  mask_array ← image_open_array png_path;
  print (OutMaskShape (shape mask_array));;
  print (OutMaskDtype (nd_dtype mask_array));;
  print (OutUniqueValues (np_unique mask_array));;
  mret mask_array.

(** Lines 11-87. *)
Definition convert_mask_to_npy (png_path : string) (output_path : option string)
  : M string :=
  mask_array ← load_mask png_path;
  binary_mask ← binarizer mask_array;
  pack_and_save png_path output_path binary_mask.

(** Lines 113-127: the body of the [try]. *)
Definition convert_and_verify (png_path : string) : M unit :=
  output_file ← convert_mask_to_npy png_path None;
  print (OutSuccess png_path output_file);;
  print OutVerifying;;
  loaded_data ← np_load output_file;
  print (OutLoadedShape (shape loaded_data));;
  print (OutLoadedDtype (nd_dtype loaded_data));;
  n ← lift (py_len (VArr loaded_data));
  print (OutNumAnnotations n);;
  n' ← lift (py_len (VArr loaded_data));
  if (0 <? n')%nat then
    first_annotation ← lift (py_getitem (VArr loaded_data) 0);
    timestamp ← lift (py_getitem first_annotation 0);
    print (OutTimestamp timestamp);;
    action ← lift (py_getitem first_annotation 1);
    print (OutAction action);;
    xs ← lift (py_getitem first_annotation 2);
    count ← lift (py_len xs);
    print (OutNumContours count)
  else mret tt.

(** Lines 102-132: one iteration of the driver's loop. *)
Definition process_path (png_path : string) : M unit :=
  print OutRule;;
  print (OutProcessing png_path);;
  print OutRule;;
  found ← os_path_exists png_path;
  if negb found then
    print (OutFileNotFound png_path)
  else
    try_except (convert_and_verify png_path)
      (fun e =>
         print (OutConversionError png_path e);;
         print (OutTraceback e)).

Definition png_paths : list string :=
  ["samples/ROI 1_1 mask.png"; "samples/ROI 1_10.png";
   "samples/ROI 1_20.png"; "samples/ROI 1_62.png"].

(** The driver over an arbitrary list of paths. *)
Definition run_batch (paths : list string) : M unit :=
  for_each paths process_path;;
  print OutRule;;
  print OutAllCompleted;;
  print OutRule.

(** Lines 89-136. *)
Definition main : M unit := run_batch png_paths.

(** The status the interpreter exits with once [main] has run: zero unless
    an exception escaped. *)
Definition exit_status {A} (r : result A) : Z :=
  match r with
  | Ok _ => 0
  | Raise _ => 1
  end.

(** ** Reference definitions taken from the specification's wording *)

(** Section 4.2: [mask[i,j] = 1 if raw[i,j] > 0 else 0]. *)
Definition threshold_rule (v : scalar) : scalar :=
  SInt (if gt_zero v then 1 else 0).

(** Section 4.2 and 9: the binarizer collapsed to the single rule. *)
Definition spec_binarize (raw : ndarray scalar) : ndarray scalar :=
  mk_ndarray uint8 (shape raw) (map threshold_rule (data raw)).

(** Section 9: the program with the two-branch conditional replaced by one
    unconditional thresholding step. *)
Definition convert_single_threshold (png_path : string) (output_path : option string)
  : M string :=
  mask_array ← load_mask png_path;
  pack_and_save png_path output_path (spec_binarize mask_array).

(** Section 3: the annotation record for a timestamp and a list of
    contours, inside its one-element container. *)
Definition annotation_record (timestamp : string) (contours : list contour)
  : ndarray pyobj :=
  mk_ndarray object_ [1; 4]%nat
    [PStr timestamp; PStr "converted from PNG";
     PList (map x_coords_of contours); PList (map y_coords_of contours)].

(** The files once [np.save] has written the record for the contours [cs]
    of the image at [png]. *)
Definition files_after (png : string) (out : option string) (cs : list contour)
    (w : World) : gmap string file :=
  <[npy_file_name (determine_output_path png out) :=
      DataFile (encode_npy (annotation_record (strftime (now w)) cs))]> (fs w).

(** The exact value of a finite float, [numerator / denominator]. *)
Definition float_numerator (s : bool) (m : positive) (e : Z) : Z :=
  (if s then - Z.pos m else Z.pos m) * 2 ^ Z.max e 0.
Definition float_denominator (e : Z) : Z := 2 ^ Z.max (- e) 0.

(** ** Auxiliary predicates *)

Definition int64_range (z : Z) : Prop := INT64_MIN <= z <= INT64_MAX.

(** What the on-disk form can hold: 64-bit integers and dimensions. *)
Definition storable_obj (o : pyobj) : Prop :=
  match o with
  | PStr _ => True
  | PList items => Forall (Forall int64_range) items
  end.

Definition storable (a : ndarray pyobj) : Prop :=
  Forall (fun n => Z.of_nat n <= INT64_MAX) (shape a)
  /\ Forall storable_obj (data a).

(** An item the reader returns unchanged, whatever follows it. *)
Definition reads_back {A} (enc : A -> list byte) (dec : parser A) (x : A) : Prop :=
  forall rest, dec (enc x ++ rest) = Some (x, rest).

(** Two worlds that differ at most in what the console shows. *)
Definition same_state (w1 w2 : World) : Prop :=
  fs w1 = fs w2 /\ write_protected w1 = write_protected w2 /\ now w1 = now w2.

(** A computation whose result and effects do not depend on the console. *)
Definition oblivious {A} (m : M A) : Prop :=
  forall w1 w2, same_state w1 w2 ->
    (m w1).1 = (m w2).1 /\ same_state (m w1).2 (m w2).2.

(** A computation that only appends to the console, and only lines
    satisfying [P]. *)
Definition emits {A} (P : output -> Prop) (m : M A) : Prop :=
  forall w, exists lines,
    console (m w).2 = console w ++ lines /\ Forall P lines.

(** The path announced by a [Processing:] line. *)
Definition processing_of (o : output) : option string :=
  match o with
  | OutProcessing p => Some p
  | _ => None
  end.

Definition not_processing (o : output) : Prop := processing_of o = None.

(** ** Sample inputs *)

(** A 3x3 greyscale image with one bright pixel in the middle. *)
Definition dot_image : ndarray scalar :=
  mk_ndarray uint8 [3; 3]%nat (map SInt [0; 0; 0; 0; 255; 0; 0; 0; 0]).

(** A 2x2 signed image with negative, zero and positive samples. *)
Definition signed_image : ndarray scalar :=
  mk_ndarray int32 [2; 2]%nat (map SInt [-3; 0; 7; 255]).

(** A 2x2 image that is bright everywhere. *)
Definition bright_image : ndarray scalar :=
  mk_ndarray uint8 [2; 2]%nat (map SInt [255; 255; 255; 255]).

(** A single bright pixel. *)
Definition pixel_image : ndarray scalar :=
  mk_ndarray uint8 [1; 1]%nat [SInt 255].

(** The square contour around the bright pixel of [dot_image]. *)
Definition dot_contour : contour :=
  map (fun p : Z * Z => (half_to_float (fst p), half_to_float (snd p)))
    [(3, 2); (2, 1); (1, 2); (2, 3); (3, 2)].

Definition sample_clock : datetime := mk_datetime 2024 3 7 9 5 0.

Definition empty_world : World := mk_World ∅ ∅ sample_clock [].

(** A directory holding three images, one file that is not an image, and
    nothing at the first path of the driver's list. *)
Definition sample_world : World :=
  mk_World
    (<["samples/x.png" := ImageFile 120 dot_image]>
       (<["samples/ROI 1_10.png" := ImageFile 120 dot_image]>
          (<["samples/ROI 1_20.png" := DataFile [x00; x01]]>
             (<["samples/ROI 1_62.png" := ImageFile 90 pixel_image]>
                (<["samples/bright.png" := ImageFile 95 bright_image]> ∅)))))
    ∅ sample_clock [].

(** The sample directory with an older file already present at [out]. *)
Definition stale_world : World :=
  mk_World (<["out" := DataFile [x00; x01; x02]]> (fs sample_world))
    ∅ sample_clock [].

(** A computation that leaves every file outside [T] as it was, and never
    touches the write protection or the clock. *)
Definition confined {A} (T : string -> Prop) (m : M A) : Prop :=
  forall w,
    (forall q, ~ T q -> fs (m w).2 !! q = fs w !! q)
    /\ write_protected (m w).2 = write_protected w
    /\ now (m w).2 = now w.

(** The file a conversion of [png_path] may write. *)
Definition target_of (png_path : string) (output_path : option string) : string :=
  npy_file_name (determine_output_path png_path output_path).

(** * Properties *)

(** ** The binarizer *)

Section Binarizer.
Implicit Types (raw : ndarray scalar) (w : World).

Lemma threshold_is_rule raw : threshold raw = spec_binarize raw.
Proof.
  unfold threshold, astype_uint8, np_greater_zero, nd_map, spec_binarize; simpl.
  f_equal. rewrite <- list_fmap_compose. reflexivity.
Qed.

Lemma threshold_rule_fixed v : threshold_rule (threshold_rule v) = threshold_rule v.
Proof. unfold threshold_rule. destruct (gt_zero v); reflexivity. Qed.

Lemma threshold_rule_bit v : threshold_rule v = SInt 0 \/ threshold_rule v = SInt 1.
Proof. unfold threshold_rule. destruct (gt_zero v); auto. Qed.

Lemma binary_branch_run raw w :
  binary_branch raw w = (Ok (spec_binarize raw), with_console w [OutBinaryDetected]).
Proof. unfold binary_branch. rewrite threshold_is_rule. reflexivity. Qed.

Lemma non_binary_branch_run raw w :
  non_binary_branch raw w
  = (Ok (spec_binarize raw), with_console w [OutNonBinaryDetected]).
Proof. unfold non_binary_branch. rewrite threshold_is_rule. reflexivity. Qed.

Lemma binarizer_run raw w :
  exists line, binarizer raw w = (Ok (spec_binarize raw), with_console w [line]).
Proof.
  unfold binarizer. destruct (_ =? _)%nat.
  - eexists. apply binary_branch_run.
  - eexists. apply non_binary_branch_run.
Qed.

Lemma nd_get_spec_binarize raw idx :
  nd_get (spec_binarize raw) idx = threshold_rule <$> nd_get raw idx.
Proof.
  unfold nd_get, spec_binarize; simpl.
  destruct (flat_index (shape raw) idx); [|reflexivity].
  apply list_lookup_fmap.
Qed.
End Binarizer.

(** C2. On every pixel grid, whatever the element type and the values, the
    binarizer returns a mask of the same shape whose entry at each index is
    1 where the raw value is strictly positive and 0 elsewhere (so a
    negative or zero integer gives 0), and every entry of the mask is 0 or
    1. *)
Theorem binarizer_thresholds (raw : ndarray scalar) (w : World) :
  exists mask w',
    binarizer raw w = (Ok mask, w')
    /\ shape mask = shape raw
    /\ (forall idx, nd_get mask idx = threshold_rule <$> nd_get raw idx)
    /\ (forall idx z, nd_get raw idx = Some (SInt z) ->
          nd_get mask idx = Some (SInt (if 0 <? z then 1 else 0)))
    /\ (forall idx z, nd_get raw idx = Some (SInt z) -> z <= 0 ->
          nd_get mask idx = Some (SInt 0))
    /\ Forall (fun x => x = SInt 0 \/ x = SInt 1) (data mask).
Proof.
  destruct (binarizer_run raw w) as [line Hrun].
  exists (spec_binarize raw), (with_console w [line]).
  split; [exact Hrun|]. split; [reflexivity|].
  split; [apply nd_get_spec_binarize|].
  split; [|split].
  - intros idx z Hz. rewrite nd_get_spec_binarize, Hz. reflexivity.
  - intros idx z Hz Hneg. rewrite nd_get_spec_binarize, Hz. simpl.
    unfold threshold_rule; simpl.
    destruct (Z.ltb_spec 0 z); [lia|reflexivity].
  - simpl. apply List.Forall_forall. intros x Hx.
    apply in_map_iff in Hx. destruct Hx as (v & <- & _).
    apply threshold_rule_bit.
Qed.

(** C8. Thresholding an already thresholded grid changes nothing: the
    binarizer run on its own output returns that output, and its result on
    a given raw grid is the same in every run. *)
Theorem binarization_idempotent (raw : ndarray scalar) (w : World) :
  threshold (threshold raw) = threshold raw
  /\ (exists mask w1 w2,
        binarizer raw w = (Ok mask, w1) /\ binarizer mask w1 = (Ok mask, w2))
  /\ (forall w', (binarizer raw w').1 = (binarizer raw w).1).
Proof.
  assert (Hfix : spec_binarize (spec_binarize raw) = spec_binarize raw).
  { unfold spec_binarize; simpl. f_equal. rewrite map_map.
    apply map_ext. intros v. apply threshold_rule_fixed. }
  split; [|split].
  - rewrite !threshold_is_rule. exact Hfix.
  - destruct (binarizer_run raw w) as [l1 H1].
    destruct (binarizer_run (spec_binarize raw) (with_console w [l1])) as [l2 H2].
    exists (spec_binarize raw), (with_console w [l1]).
    eexists. split; [exact H1|]. rewrite H2, Hfix. reflexivity.
  - intros w'.
    destruct (binarizer_run raw w) as [l1 ->].
    destruct (binarizer_run raw w') as [l2 ->]. reflexivity.
Qed.

(** ** Computations that ignore the console *)

Section Oblivious.
Lemma same_state_refl w : same_state w w.
Proof. repeat split. Qed.

Lemma same_state_console w lines : same_state (with_console w lines) w.
Proof. repeat split. Qed.

Lemma same_state_with_console w1 w2 l1 l2 :
  same_state w1 w2 -> same_state (with_console w1 l1) (with_console w2 l2).
Proof. intros (? & ? & ?). repeat split; assumption. Qed.

Lemma oblivious_ret {A} (a : A) : oblivious (mret a).
Proof. intros w1 w2 H. split; [reflexivity|exact H]. Qed.

Lemma oblivious_lift {A} (r : result A) : oblivious (lift r).
Proof. intros w1 w2 H. split; [reflexivity|exact H]. Qed.

Lemma oblivious_print o : oblivious (print o).
Proof.
  intros w1 w2 H. split; [reflexivity|].
  apply same_state_with_console, H.
Qed.

Lemma oblivious_bind {A B} (m : M A) (k : A -> M B) :
  oblivious m -> (forall a, oblivious (k a)) -> oblivious (m ≫= k).
Proof.
  intros Hm Hk w1 w2 H.
  unfold mbind, M_bind, bind.
  destruct (Hm w1 w2 H) as [Hres Hst].
  destruct (m w1) as [r1 w1'], (m w2) as [r2 w2']; simpl in *. subst r2.
  destruct r1 as [a|e]; [apply Hk, Hst|].
  split; [reflexivity|exact Hst].
Qed.

Lemma oblivious_strftime_now : oblivious strftime_now.
Proof.
  intros w1 w2 H. unfold strftime_now; simpl.
  destruct H as (? & ? & Hnow). rewrite Hnow. repeat split; assumption.
Qed.

Lemma oblivious_getsize path : oblivious (os_path_getsize path).
Proof.
  intros w1 w2 H. unfold os_path_getsize.
  destruct H as (Hfs & Hwp & Hnow). rewrite Hfs.
  destruct (fs w2 !! path); simpl; repeat split; assumption.
Qed.

Lemma oblivious_np_save file arr : oblivious (np_save file arr).
Proof.
  intros w1 w2 H. unfold np_save.
  destruct H as (Hfs & Hwp & Hnow). rewrite Hfs, Hwp.
  destruct (decide _); simpl; repeat split; assumption.
Qed.

Lemma oblivious_annotation_loop contours :
  forall i annotation, oblivious (annotation_loop i contours annotation).
Proof.
  induction contours as [|c rest IH]; intros i annotation; simpl.
  - apply oblivious_ret.
  - apply oblivious_bind; [apply oblivious_lift|]. intros a1.
    apply oblivious_bind; [apply oblivious_lift|]. intros a2.
    apply oblivious_bind; [apply oblivious_print|]. intros _. apply IH.
Qed.

Lemma oblivious_build_annotation t contours :
  oblivious (build_annotation t contours).
Proof.
  unfold build_annotation.
  apply oblivious_bind; [apply oblivious_annotation_loop|].
  intros a. apply oblivious_ret.
Qed.

Lemma oblivious_pack_and_save png out mask :
  oblivious (pack_and_save png out mask).
Proof.
  unfold pack_and_save.
  repeat first
    [ apply oblivious_ret | apply oblivious_lift | apply oblivious_print
    | apply oblivious_strftime_now | apply oblivious_getsize
    | apply oblivious_np_save | apply oblivious_build_annotation
    | apply oblivious_bind; [|intros ?] ].
Qed.
End Oblivious.

(** C9. Both branches of the distinct-value conditional return the mask
    given by the single thresholding rule, so does the binarizer whichever
    branch it takes, and the program returns the same result and leaves the
    same files as the program with one unconditional thresholding step (the
    branches differ only in the diagnostic line they print). *)
Theorem binarizer_branches_agree (raw : ndarray scalar) (w : World) :
  (binary_branch raw w).1 = Ok (spec_binarize raw)
  /\ (non_binary_branch raw w).1 = Ok (spec_binarize raw)
  /\ (binarizer raw w).1 = Ok (spec_binarize raw)
  /\ same_state (binary_branch raw w).2 (non_binary_branch raw w).2
  /\ (forall png_path output_path,
        (convert_mask_to_npy png_path output_path w).1
        = (convert_single_threshold png_path output_path w).1
        /\ fs (convert_mask_to_npy png_path output_path w).2
           = fs (convert_single_threshold png_path output_path w).2).
Proof.
  split; [rewrite binary_branch_run; reflexivity|].
  split; [rewrite non_binary_branch_run; reflexivity|].
  split; [destruct (binarizer_run raw w) as [l ->]; reflexivity|].
  split.
  { rewrite binary_branch_run, non_binary_branch_run. simpl.
    apply same_state_with_console, same_state_refl. }
  intros png out.
  unfold convert_mask_to_npy, convert_single_threshold, mbind, M_bind, bind.
  destruct (load_mask png w) as [[mask|e] w1]; [|split; reflexivity].
  destruct (binarizer_run mask w1) as [l ->].
  destruct (oblivious_pack_and_save png out (spec_binarize mask)
              (with_console w1 [l]) w1 (same_state_console w1 [l]))
    as (Hres & Hfs & _).
  split; assumption.
Qed.

(** ** The annotation packer *)

Section Packer.
Implicit Types (contours : list contour) (w : World).

Lemma with_console_app w l1 l2 :
  with_console (with_console w l1) l2 = with_console w (l1 ++ l2).
Proof. unfold with_console; simpl. rewrite <- app_assoc. reflexivity. Qed.

Lemma coords_same_length (c : contour) :
  length (x_coords_of c) = length (y_coords_of c)
  /\ length (x_coords_of c) = length c.
Proof. unfold x_coords_of, y_coords_of. rewrite !length_map. auto. Qed.

Lemma annotation_loop_run contours :
  forall i t l xs ys w, exists lines,
    annotation_loop i contours [t; l; PList xs; PList ys] w
    = (Ok [t; l; PList (xs ++ map x_coords_of contours);
           PList (ys ++ map y_coords_of contours)],
       with_console w lines).
Proof.
  induction contours as [|c rest IH]; intros i t l xs ys w.
  - exists []. simpl. rewrite !app_nil_r.
    unfold with_console. rewrite app_nil_r. destruct w; reflexivity.
  - destruct (IH (S i) t l (xs ++ [x_coords_of c]) (ys ++ [y_coords_of c])
                (with_console w [OutContour (i + 1) (length (x_coords_of c))]))
      as [lines Hrest].
    exists (OutContour (i + 1) (length (x_coords_of c)) :: lines).
    cbn [annotation_loop]. unfold mbind, M_bind, bind, lift, append_at; simpl.
    rewrite Hrest, with_console_app, <- !app_assoc. reflexivity.
Qed.

Lemma build_annotation_run t contours w :
  exists lines,
    build_annotation t contours w
    = (Ok (annotation_record t contours), with_console w lines).
Proof.
  destruct (annotation_loop_run contours 0 (PStr t) (PStr "converted from PNG")
              [] [] w) as [lines Hloop].
  exists lines. unfold build_annotation, mbind, M_bind, bind.
  rewrite Hloop. reflexivity.
Qed.

Lemma astype_int_range f : int64_range (astype_int f).
Proof.
  assert (Hmin : int64_range INT64_MIN) by (split; discriminate).
  assert (Hzero : int64_range 0) by (split; discriminate).
  destruct f as [s|s| |s m e]; try assumption.
  unfold astype_int. cbv zeta.
  destruct (_ && _) eqn:E; [|assumption].
  apply andb_prop in E. destruct E as [E1 E2].
  apply Z.leb_le in E1, E2. split; assumption.
Qed.

Lemma astype_int_truncates s m e :
  int64_range (float_numerator s m e ÷ float_denominator e) ->
  astype_int (S754_finite s m e) = float_numerator s m e ÷ float_denominator e.
Proof.
  intros Hrange.
  assert (Hv : (if s then - truncated_magnitude m e else truncated_magnitude m e)
               = float_numerator s m e ÷ float_denominator e).
  { unfold truncated_magnitude, float_numerator, float_denominator.
    destruct (Z.leb_spec 0 e) as [He|He].
    - rewrite (Z.max_l e 0), (Z.max_r (- e) 0) by lia.
      rewrite Z.shiftl_mul_pow2 by lia. simpl (2 ^ 0). rewrite Z.quot_1_r.
      destruct s; lia.
    - rewrite (Z.max_r e 0), (Z.max_l (- e) 0) by lia.
      rewrite Z.shiftr_div_pow2 by lia. simpl (2 ^ 0). rewrite Z.mul_1_r.
      assert (Hd : 0 < 2 ^ (- e)) by (apply Z.pow_pos_nonneg; lia).
      destruct s.
      + rewrite Z.quot_opp_l by lia.
        rewrite Z.quot_div_nonneg by lia. reflexivity.
      + rewrite Z.quot_div_nonneg by lia. reflexivity. }
  unfold astype_int. cbv zeta. rewrite Hv.
  destruct Hrange as [H1 H2].
  apply Z.leb_le in H1, H2. rewrite H1, H2. reflexivity.
Qed.
End Packer.

(** C1. For every list of contours the packer returns a one-element object
    array whose single record has the four fields timestamp, label,
    x-sequences and y-sequences; both sequence lists have as many entries
    as there are contours, and the i-th x-sequence and the i-th y-sequence
    are taken from the i-th contour and have the same length. *)
Theorem annotation_record_invariant
    (current_time : string) (contours : list contour) (w : World) :
  exists xs ys w',
    let record := [PStr current_time; PStr "converted from PNG"; PList xs; PList ys] in
    build_annotation current_time contours w
      = (Ok (mk_ndarray object_ [1; 4]%nat record), w')
    /\ py_len (VArr (mk_ndarray object_ [1; 4]%nat record)) = Ok 1%nat
    /\ py_getitem (VArr (mk_ndarray object_ [1; 4]%nat record)) 0
       = Ok (VArr (mk_ndarray object_ [4]%nat record))
    /\ length xs = length contours
    /\ length ys = length contours
    /\ (forall i c, contours !! i = Some c ->
          exists x y,
            xs !! i = Some x /\ ys !! i = Some y
            /\ x = x_coords_of c /\ y = y_coords_of c
            /\ length x = length y /\ length x = length c).
Proof.
  destruct (build_annotation_run current_time contours w) as [lines Hrun].
  exists (map x_coords_of contours), (map y_coords_of contours),
    (with_console w lines).
  cbv zeta. split; [exact Hrun|].
  split; [reflexivity|]. split; [reflexivity|].
  split; [apply length_map|]. split; [apply length_map|].
  intros i c Hc. exists (x_coords_of c), (y_coords_of c).
  split; [change (map x_coords_of contours) with (x_coords_of <$> contours);
          rewrite list_lookup_fmap, Hc; reflexivity|].
  split; [change (map y_coords_of contours) with (y_coords_of <$> contours);
          rewrite list_lookup_fmap, Hc; reflexivity|].
  split; [reflexivity|]. split; [reflexivity|].
  apply coords_same_length.
Qed.

(** C3. The packer stores, contour by contour and in contour order, the
    column coordinates cast to integer as the x-sequence and the row
    coordinates cast to integer as the y-sequence; the cast of a finite
    coordinate is its exact value rounded toward zero. *)
Theorem packer_stores_truncated_coordinates
    (current_time : string) (contours : list contour) (w : World) :
  (exists w',
     build_annotation current_time contours w
     = (Ok (mk_ndarray object_ [1; 4]%nat
              [PStr current_time; PStr "converted from PNG";
               PList (map (fun c => map (fun p => astype_int (snd p)) c) contours);
               PList (map (fun c => map (fun p => astype_int (fst p)) c) contours)]),
        w'))
  /\ (forall s, astype_int (S754_zero s) = 0)
  /\ (forall s m e,
        int64_range (float_numerator s m e ÷ float_denominator e) ->
        astype_int (S754_finite s m e)
        = float_numerator s m e ÷ float_denominator e).
Proof.
  split; [|split].
  - destruct (build_annotation_run current_time contours w) as [lines Hrun].
    exists (with_console w lines). exact Hrun.
  - reflexivity.
  - apply astype_int_truncates.
Qed.

(** ** Paths *)

Section Paths.
Implicit Types (s p : string) (c : ascii).

Lemma rfind_from_shift c s :
  forall i, 0 <= i ->
    rfind_from c s i
    = if 0 <=? rfind_from c s 0 then i + rfind_from c s 0 else -1.
Proof.
  induction s as [|a r IH]; intros i Hi; [reflexivity|].
  cbn [rfind_from].
  rewrite (IH (i + 1)), (IH (0 + 1)) by lia.
  destruct (Z.leb_spec 0 (rfind_from c r 0)) as [Hr|Hr].
  - destruct (Z.leb_spec 0 (i + 1 + rfind_from c r 0)); [|lia].
    destruct (Z.leb_spec 0 (0 + 1 + rfind_from c r 0)); [|lia].
    destruct (Z.leb_spec 0 (0 + 1 + rfind_from c r 0)); lia.
  - change (0 <=? -1) with false. cbv iota.
    destruct (Ascii.eqb a c).
    + change (0 <=? 0) with true. cbv iota.
      destruct (Z.leb_spec 0 i); lia.
    + reflexivity.
Qed.

Lemma append_nil_l s : EmptyString +:+ s = s.
Proof. reflexivity. Qed.

Lemma append_cons a r s : String a r +:+ s = String a (r +:+ s).
Proof. reflexivity. Qed.

Lemma rfind_from_app c s1 :
  forall s2 i, 0 <= i ->
    rfind_from c (s1 +:+ s2) i
    = if 0 <=? rfind_from c s2 0
      then i + Z.of_nat (String.length s1) + rfind_from c s2 0
      else rfind_from c s1 i.
Proof.
  induction s1 as [|a r IH]; intros s2 i Hi.
  - rewrite append_nil_l, (rfind_from_shift c s2 i Hi). simpl.
    destruct (0 <=? rfind_from c s2 0); [lia|reflexivity].
  - rewrite append_cons. cbn [rfind_from String.length].
    rewrite (IH s2 (i + 1)) by lia.
    destruct (Z.leb_spec 0 (rfind_from c s2 0)) as [H2|H2]; [|reflexivity].
    destruct (Z.leb_spec 0 (i + 1 + Z.of_nat (String.length r) + rfind_from c s2 0));
      lia.
Qed.

Lemma rfind_head c s : rfind_from c s 0 = -1 -> rfind c (String c s) = 0.
Proof.
  intros Hs. unfold rfind. cbn [rfind_from].
  rewrite (rfind_from_shift c s (0 + 1)) by lia. rewrite Hs.
  change (0 <=? -1) with false. cbv iota.
  rewrite Ascii.eqb_refl. reflexivity.
Qed.

Lemma rfind_absent_cons c a s :
  a <> c -> rfind c s = -1 -> rfind c (String a s) = -1.
Proof.
  intros Ha Hs. unfold rfind in *. cbn [rfind_from].
  rewrite (rfind_from_shift c s (0 + 1)) by lia. rewrite Hs.
  change (0 <=? -1) with false. cbv iota.
  apply Ascii.eqb_neq in Ha. rewrite Ha. reflexivity.
Qed.

Lemma str_drop_app s1 s2 n :
  str_drop (String.length s1 + n) (s1 +:+ s2) = str_drop n s2.
Proof.
  induction s1 as [|a r IH]; [reflexivity|].
  rewrite append_cons. exact IH.
Qed.

Lemma str_drop_0 s : str_drop 0 s = s.
Proof. destruct s; reflexivity. Qed.

Lemma str_take_app s1 s2 : str_take (String.length s1) (s1 +:+ s2) = s1.
Proof.
  induction s1 as [|a r IH].
  - rewrite append_nil_l. destruct s2; reflexivity.
  - rewrite append_cons. simpl. rewrite IH. reflexivity.
Qed.

Lemma length_append s1 s2 :
  String.length (s1 +:+ s2) = (String.length s1 + String.length s2)%nat.
Proof.
  induction s1 as [|a r IH]; [reflexivity|].
  rewrite append_cons. simpl. rewrite IH. reflexivity.
Qed.

(** The last component of [dir/name] is [name]. *)
Lemma basename_join dir name :
  rfind sep name = -1 -> basename (dir +:+ String sep name) = name.
Proof.
  intros Hname. unfold basename, rfind.
  rewrite rfind_from_app by lia.
  fold (rfind sep (String sep name)). rewrite (rfind_head sep name Hname).
  change (0 <=? 0) with true. cbv iota.
  replace (Z.to_nat (0 + Z.of_nat (String.length dir) + 0 + 1))
    with (String.length dir + 1)%nat by lia.
  rewrite str_drop_app. reflexivity.
Qed.

(** A name [stem.ext] whose stem does not start with a dot splits into
    the stem and the dotted extension. *)
Lemma splitext_stem b0 stem ext :
  b0 <> extsep ->
  rfind sep (String b0 stem) = -1 -> rfind sep ext = -1 ->
  rfind extsep ext = -1 ->
  splitext (String b0 stem +:+ String extsep ext)
  = (String b0 stem, String extsep ext).
Proof.
  intros Hb0 Hsep1 Hsep2 Hdot. unfold splitext.
  assert (Hs : rfind sep (String b0 stem +:+ String extsep ext) = -1).
  { unfold rfind. rewrite rfind_from_app by lia.
    fold (rfind sep (String extsep ext)).
    rewrite (rfind_absent_cons sep extsep ext) by (discriminate || assumption).
    exact Hsep1. }
  assert (Hd : rfind extsep (String b0 stem +:+ String extsep ext)
               = Z.of_nat (String.length (String b0 stem))).
  { unfold rfind. rewrite rfind_from_app by lia.
    fold (rfind extsep (String extsep ext)).
    rewrite (rfind_head extsep ext Hdot). reflexivity. }
  rewrite Hs, Hd.
  replace (-1 <? Z.of_nat (String.length (String b0 stem))) with true
    by (symmetry; apply Z.ltb_lt; lia).
  replace (Z.to_nat (-1 + 1)) with 0%nat by reflexivity.
  replace (Z.to_nat (Z.of_nat (String.length (String b0 stem)) - (-1 + 1)))
    with (S (String.length stem)) by (simpl String.length; lia).
  rewrite append_cons. cbn [splitext_scan String.get].
  apply Ascii.eqb_neq in Hb0. rewrite Hb0. cbn [andb].
  rewrite Nat2Z.id, <- append_cons.
  rewrite str_take_app.
  replace (String.length (String b0 stem))
    with (String.length (String b0 stem) + 0)%nat by lia.
  rewrite str_drop_app, str_drop_0. reflexivity.
Qed.

Lemma default_name_has_extension base :
  npy_file_name (base +:+ "_seg.npy") = base +:+ "_seg.npy".
Proof.
  unfold npy_file_name, endswith.
  rewrite length_append.
  replace (String.length "_seg.npy") with 8%nat by reflexivity.
  replace (String.length ".npy") with 4%nat by reflexivity.
  replace (String.length base + 8 - 4)%nat with (String.length base + 4)%nat by lia.
  rewrite str_drop_app.
  replace (4 <=? String.length base + 8)%nat with true
    by (symmetry; apply Nat.leb_le; lia).
  reflexivity.
Qed.
End Paths.

(** ** The on-disk form *)

Section Codec.
Lemma Z_of_byte_of_Z r : 0 <= r < 256 -> Z_of_byte (byte_of_Z r) = r.
Proof.
  intros Hr. unfold Z_of_byte, byte_of_Z.
  destruct (Byte.of_N (Z.to_N r)) as [b|] eqn:E.
  - apply Byte.to_of_N in E. simpl. rewrite E. lia.
  - apply Byte.of_N_None_iff in E. lia.
Qed.

Lemma length_le_bytes n : forall z, length (le_bytes n z) = n.
Proof. induction n as [|n IH]; intros z; simpl; [|rewrite IH]; reflexivity. Qed.

Lemma le_value_le_bytes n :
  forall z, 0 <= z -> le_value (le_bytes n z) = z mod 256 ^ Z.of_nat n.
Proof.
  induction n as [|n IH]; intros z Hz.
  - simpl. rewrite Z.mod_1_r. reflexivity.
  - cbn [le_bytes le_value].
    rewrite Z_of_byte_of_Z by (apply Z.mod_pos_bound; lia).
    rewrite IH by (apply Z.div_pos; lia).
    rewrite Nat2Z.inj_succ, Z.pow_succ_r by lia.
    rewrite Z.rem_mul_r by lia. reflexivity.
Qed.

Lemma decode_encode_int64 z rest :
  int64_range z -> decode_int64 (encode_int64 z ++ rest) = Some (z, rest).
Proof.
  intros [Hlo Hhi]. unfold INT64_MIN, INT64_MAX in *.
  unfold decode_int64, encode_int64.
  rewrite length_app, length_le_bytes.
  replace (8 <=? 8 + length rest)%nat with true
    by (symmetry; apply Nat.leb_le; lia).
  rewrite take_app_length' by (symmetry; apply length_le_bytes).
  rewrite drop_app_length' by (symmetry; apply length_le_bytes).
  rewrite le_value_le_bytes by (apply Z.mod_pos_bound; lia).
  change (256 ^ Z.of_nat 8) with (2 ^ 64).
  rewrite Z.mod_mod by lia.
  f_equal. f_equal.
  destruct (Z.ltb_spec (z mod 2 ^ 64) (2 ^ 63)) as [H|H].
  - destruct (Z.le_gt_cases 0 z) as [Hz|Hz].
    + apply Z.mod_small. lia.
    + exfalso.
      assert (z mod 2 ^ 64 = z + 2 ^ 64)
        by (symmetry; apply (Z.mod_unique_pos _ _ (-1)); lia).
      lia.
  - destruct (Z.le_gt_cases 0 z) as [Hz|Hz].
    + exfalso. rewrite Z.mod_small in H by lia. lia.
    + assert (z mod 2 ^ 64 = z + 2 ^ 64)
        by (symmetry; apply (Z.mod_unique_pos _ _ (-1)); lia).
      lia.
Qed.

Lemma decode_encode_char a rest :
  decode_char (encode_char a ++ rest) = Some (a, rest).
Proof. simpl. rewrite ascii_of_byte_of_ascii. reflexivity. Qed.

Lemma decode_encode_dim n rest :
  Z.of_nat n <= INT64_MAX -> decode_dim (encode_dim n ++ rest) = Some (n, rest).
Proof.
  intros Hn. unfold decode_dim, encode_dim.
  rewrite decode_encode_int64
    by (split; [unfold INT64_MIN; lia|exact Hn]).
  replace (0 <=? Z.of_nat n) with true by (symmetry; apply Z.leb_le; lia).
  rewrite Nat2Z.id. reflexivity.
Qed.

Section Sequences.
Context {A : Type} (enc : A -> list byte) (dec : parser A).

Lemma length_encode_seq l : (length l < length (encode_seq enc l))%nat.
Proof.
  induction l as [|x l IH]; simpl; [lia|].
  rewrite length_app. lia.
Qed.

Lemma decode_seq_fuel_encode l :
  Forall (reads_back enc dec) l ->
  forall fuel rest, (length l < fuel)%nat ->
    decode_seq_fuel dec fuel (encode_seq enc l ++ rest) = Some (l, rest).
Proof.
  induction 1 as [|x l Hx _ IH]; intros fuel rest Hfuel.
  - destruct fuel; [simpl in Hfuel; lia|reflexivity].
  - destruct fuel as [|fuel]; [lia|].
    simpl in Hfuel. cbn [encode_seq decode_seq_fuel app].
    rewrite <- app_assoc, Hx, IH by lia. reflexivity.
Qed.

Lemma decode_encode_seq l rest :
  Forall (reads_back enc dec) l ->
  decode_seq dec (encode_seq enc l ++ rest) = Some (l, rest).
Proof.
  intros Hl. unfold decode_seq.
  apply decode_seq_fuel_encode; [exact Hl|].
  rewrite length_app. pose proof (length_encode_seq l). lia.
Qed.
End Sequences.

Lemma decode_encode_pyobj o rest :
  storable_obj o -> decode_pyobj (encode_pyobj o ++ rest) = Some (o, rest).
Proof.
  destruct o as [s|items]; intros Ho; cbn [encode_pyobj decode_pyobj app].
  - rewrite decode_encode_seq.
    + unfold string_of_chars, chars_of_string.
      rewrite string_of_list_ascii_of_string. reflexivity.
    + apply List.Forall_forall. intros a _ r. apply decode_encode_char.
  - rewrite decode_encode_seq; [reflexivity|].
    simpl in Ho. eapply Forall_impl; [exact Ho|].
    intros arr Harr r. apply decode_encode_seq.
    eapply Forall_impl; [exact Harr|].
    intros z Hz r'. apply decode_encode_int64, Hz.
Qed.

Lemma decode_dtype_code d rest : decode_dtype (dtype_code d :: rest) = Some (d, rest).
Proof. destruct d; reflexivity. Qed.

(** Reading back what was written returns the array. *)
Lemma decode_encode_npy (a : ndarray pyobj) :
  storable a -> decode_npy (encode_npy a) = Some a.
Proof.
  intros [Hshape Hdata]. unfold decode_npy, encode_npy.
  cbn [npy_magic app]. rewrite decode_dtype_code.
  rewrite decode_encode_seq.
  - pose proof (decode_encode_seq encode_pyobj decode_pyobj (data a) [])
      as Hd.
    rewrite app_nil_r in Hd. rewrite Hd.
    + destruct a; reflexivity.
    + eapply Forall_impl; [exact Hdata|].
      intros o Ho r. apply decode_encode_pyobj, Ho.
  - eapply Forall_impl; [exact Hshape|].
    intros n Hn r. apply decode_encode_dim, Hn.
Qed.

Lemma annotation_record_storable t contours : storable (annotation_record t contours).
Proof.
  assert (Hcoords : forall (f : contour -> list Z),
            (forall c, Forall int64_range (f c)) ->
            Forall (Forall int64_range) (map f contours)).
  { intros f Hf. apply List.Forall_forall. intros l Hl.
    apply in_map_iff in Hl. destruct Hl as (c & <- & _). apply Hf. }
  assert (Hcast : forall (g : spec_float * spec_float -> spec_float) (c : contour),
            Forall int64_range (map (fun p => astype_int (g p)) c)).
  { intros g c. apply List.Forall_forall. intros z Hz.
    apply in_map_iff in Hz. destruct Hz as (p & <- & _). apply astype_int_range. }
  split; simpl.
  - repeat constructor; unfold INT64_MAX; lia.
  - repeat constructor.
    + apply Hcoords. intros c. apply (Hcast snd).
    + apply Hcoords. intros c. apply (Hcast fst).
Qed.

(** Saving to a writable target and loading that target. *)
Lemma np_save_then_load file arr w :
  storable arr -> npy_file_name file ∉ write_protected w ->
  exists w1,
    np_save file arr w = (Ok tt, w1)
    /\ fs w1 = <[npy_file_name file := DataFile (encode_npy arr)]> (fs w)
    /\ np_load (npy_file_name file) w1 = (Ok arr, w1).
Proof.
  intros Harr Hw. unfold np_save.
  destruct (decide _) as [Hin|_]; [contradiction|].
  eexists. split; [reflexivity|]. split; [reflexivity|].
  unfold np_load. cbn [fs]. rewrite lookup_insert_eq.
  rewrite (decode_encode_npy arr Harr). reflexivity.
Qed.
End Codec.

(** ** One conversion *)

Section Conversion.
Implicit Types (w : World) (raw mask : ndarray scalar).

Lemma bind_run {A B} (m : M A) (k : A -> M B) w :
  (m ≫= k) w
  = match m w with
    | (Ok a, w') => k a w'
    | (Raise e, w') => (Raise e, w')
    end.
Proof. reflexivity. Qed.

Lemma load_mask_run png w :
  load_mask png w
  = match fs w !! png with
    | Some (ImageFile _ pixels) =>
        (Ok pixels,
         with_console w [OutLoading png; OutMaskShape (shape pixels);
                         OutMaskDtype (nd_dtype pixels);
                         OutUniqueValues (np_unique pixels)])
    | Some (DataFile _) =>
        (Raise (UnidentifiedImageError png), with_console w [OutLoading png])
    | None => (Raise (FileNotFoundError png), with_console w [OutLoading png])
    end.
Proof.
  unfold load_mask. rewrite bind_run. unfold print at 1.
  rewrite bind_run. unfold image_open_array. cbn [fs with_console].
  destruct (fs w !! png) as [[size pixels|bytes]|]; try reflexivity.
  unfold mbind, M_bind, bind, print, mret, M_ret, ret; simpl.
  rewrite !with_console_app. reflexivity.
Qed.

Lemma pack_and_save_run png out mask cs w :
  find_contours mask = Ok cs ->
  npy_file_name (determine_output_path png out) ∉ write_protected w ->
  exists lines,
    pack_and_save png out mask w
    = (match files_after png out cs w !! determine_output_path png out with
       | Some _ => Ok (determine_output_path png out)
       | None => Raise (FileNotFoundError (determine_output_path png out))
       end,
       mk_World (files_after png out cs w) (write_protected w) (now w)
         (console w ++ lines)).
Proof.
  intros Hcs Hw. unfold pack_and_save.
  rewrite bind_run, Hcs. unfold lift at 1.
  rewrite bind_run. unfold print at 1.
  rewrite bind_run. unfold strftime_now at 1.
  rewrite bind_run.
  destruct (build_annotation_run (strftime (now (with_console w [OutFoundContours (length cs)])))
              cs (with_console w [OutFoundContours (length cs)]))
    as [lines ->].
  rewrite bind_run. unfold print at 1.
  rewrite bind_run. unfold np_save at 1. cbn [write_protected with_console].
  destruct (decide _) as [Hin|_]; [contradiction|].
  rewrite bind_run. unfold print at 1.
  rewrite bind_run. unfold os_path_getsize at 1.
  cbn [fs with_console now]. fold (files_after png out cs w).
  destruct (files_after png out cs w !! determine_output_path png out) as [f|].
  - eexists. unfold mbind, M_bind, bind, print, mret, M_ret, ret, with_console.
    cbn [fs write_protected now console]. rewrite <- !app_assoc. reflexivity.
  - eexists. unfold with_console.
    cbn [fs write_protected now console]. rewrite <- !app_assoc. reflexivity.
Qed.

Lemma convert_run png out w size raw cs :
  fs w !! png = Some (ImageFile size raw) ->
  find_contours (spec_binarize raw) = Ok cs ->
  npy_file_name (determine_output_path png out) ∉ write_protected w ->
  exists lines,
    convert_mask_to_npy png out w
    = (match files_after png out cs w !! determine_output_path png out with
       | Some _ => Ok (determine_output_path png out)
       | None => Raise (FileNotFoundError (determine_output_path png out))
       end,
       mk_World (files_after png out cs w) (write_protected w) (now w)
         (console w ++ lines)).
Proof.
  intros Himg Hcs Hw. unfold convert_mask_to_npy.
  rewrite bind_run, load_mask_run, Himg, bind_run.
  match goal with |- context [binarizer raw ?w0] =>
    destruct (binarizer_run raw w0) as [line ->] end.
  rewrite with_console_app.
  match goal with |- context [pack_and_save png out _ ?w0] =>
    destruct (pack_and_save_run png out (spec_binarize raw) cs w0 Hcs Hw)
      as [lines ->] end.
  unfold files_after. cbn [fs with_console write_protected now console].
  rewrite <- app_assoc. eexists. reflexivity.
Qed.

(** What a successful conversion has done. *)
Lemma convert_inv png out w p w1 :
  convert_mask_to_npy png out w = (Ok p, w1) ->
  exists size raw cs,
    fs w !! png = Some (ImageFile size raw)
    /\ find_contours (spec_binarize raw) = Ok cs
    /\ p = determine_output_path png out
    /\ (npy_file_name p ∉ write_protected w)
    /\ fs w1 = files_after png out cs w
    /\ is_Some (fs w1 !! p)
    /\ write_protected w1 = write_protected w.
Proof.
  intros Hrun.
  destruct (fs w !! png) as [[size raw|bytes]|] eqn:Himg;
    try (unfold convert_mask_to_npy in Hrun;
         rewrite bind_run, load_mask_run, Himg in Hrun; discriminate).
  destruct (find_contours (spec_binarize raw)) as [cs|e] eqn:Hcs.
  - destruct (decide (npy_file_name (determine_output_path png out)
                        ∈ write_protected w)) as [Hin|Hout].
    + exfalso. revert Hrun. unfold convert_mask_to_npy.
      rewrite bind_run, load_mask_run, Himg, bind_run.
      match goal with |- context [binarizer raw ?w0] =>
        destruct (binarizer_run raw w0) as [line ->] end.
      unfold pack_and_save.
      rewrite bind_run, Hcs. unfold lift at 1.
      rewrite bind_run. unfold print at 1.
      rewrite bind_run. unfold strftime_now at 1.
      rewrite bind_run.
      match goal with |- context [build_annotation ?t cs ?w0] =>
        destruct (build_annotation_run t cs w0) as [lines ->] end.
      rewrite bind_run. unfold print at 1.
      rewrite bind_run. unfold np_save at 1. cbn [write_protected with_console].
      destruct (decide _) as [_|Hn]; [discriminate|contradiction].
    + destruct (convert_run png out w size raw cs Himg Hcs Hout) as [lines Heq].
      rewrite Heq in Hrun.
      destruct (files_after png out cs w !! determine_output_path png out)
        as [f|] eqn:Hf; [|discriminate].
      injection Hrun as <- <-.
      exists size, raw, cs. cbn [fs write_protected].
      repeat split; try assumption. rewrite Hf. eauto.
  - exfalso. revert Hrun. unfold convert_mask_to_npy.
    rewrite bind_run, load_mask_run, Himg, bind_run.
    match goal with |- context [binarizer raw ?w0] =>
      destruct (binarizer_run raw w0) as [line ->] end.
    unfold pack_and_save. rewrite bind_run, Hcs. discriminate.
Qed.
End Conversion.

(** C4. Saving the annotation record of any timestamp and contours to a
    writable file and loading the file that was written returns the same
    record: the same timestamp and label strings and the same integer
    sequences.  In particular the file a successful conversion reports
    loads back as the record that conversion built. *)
Theorem save_load_roundtrip
    (timestamp : string) (contours : list contour) (file : string) (w : World) :
  npy_file_name file ∉ write_protected w ->
  (exists w1,
     np_save file (annotation_record timestamp contours) w = (Ok tt, w1)
     /\ np_load (npy_file_name file) w1
        = (Ok (mk_ndarray object_ [1; 4]%nat
                 [PStr timestamp; PStr "converted from PNG";
                  PList (map x_coords_of contours);
                  PList (map y_coords_of contours)]), w1))
  /\ (forall png_path output_file w2,
        convert_mask_to_npy png_path None w = (Ok output_file, w2) ->
        exists cs,
          np_load output_file w2
          = (Ok (annotation_record (strftime (now w)) cs), w2)).
Proof.
  intros Hw. split.
  - destruct (np_save_then_load file (annotation_record timestamp contours) w
                (annotation_record_storable timestamp contours) Hw)
      as (w1 & Hsave & _ & Hload).
    exists w1. split; assumption.
  - intros png p w2 Hrun.
    destruct (convert_inv png None w p w2 Hrun)
      as (size & raw & cs & _ & _ & Hp & _ & Hfs & _ & _).
    exists cs. unfold np_load. rewrite Hfs. unfold files_after.
    rewrite <- Hp.
    assert (Hname : npy_file_name p = p)
      by (rewrite Hp; apply default_name_has_extension).
    rewrite Hname, lookup_insert_eq.
    rewrite (decode_encode_npy _ (annotation_record_storable _ cs)).
    reflexivity.
Qed.

(** C6. Without an explicit output path, the output path is the input's
    base name without its extension followed by [_seg.npy]: for a path
    [dir/stem.ext] it is [stem_seg.npy], for [samples/x.png] it is
    [x_seg.npy], and it is what a successful conversion returns.  With an
    explicit output path the default is not computed and the given path is
    used. *)
Theorem default_output_path (png_path : string) :
  (forall B ext,
     splitext (basename png_path) = (B, ext) ->
     determine_output_path png_path None = B +:+ "_seg.npy")
  /\ (forall dir b0 stem ext,
        png_path = dir +:+ String sep (String b0 stem +:+ String extsep ext) ->
        b0 <> extsep ->
        rfind sep (String b0 stem) = -1 -> rfind sep ext = -1 ->
        rfind extsep ext = -1 ->
        determine_output_path png_path None = String b0 stem +:+ "_seg.npy")
  /\ determine_output_path "samples/x.png" None = "x_seg.npy"
  /\ (forall given, determine_output_path png_path (Some given) = given)
  /\ (forall output_path w p w',
        convert_mask_to_npy png_path output_path w = (Ok p, w') ->
        p = determine_output_path png_path output_path).
Proof.
  split; [|split; [|split; [|split]]].
  - intros B ext H. unfold determine_output_path. rewrite H. reflexivity.
  - intros dir b0 stem ext -> Hb0 Hs1 Hs2 Hd.
    unfold determine_output_path.
    rewrite basename_join.
    + rewrite splitext_stem by assumption. reflexivity.
    + unfold rfind. rewrite rfind_from_app by lia.
      fold (rfind sep (String extsep ext)).
      rewrite (rfind_absent_cons sep extsep ext) by (discriminate || assumption).
      exact Hs1.
  - reflexivity.
  - reflexivity.
  - intros out w p w' Hrun.
    destruct (convert_inv png_path out w p w' Hrun)
      as (_ & _ & _ & _ & _ & Hp & _). exact Hp.
Qed.

(** ** An explicit output path *)

Section ExplicitPath.
Implicit Types (w : World).

Lemma append_suffix_differs out : out +:+ ".npy" <> out.
Proof.
  intros H. apply (f_equal String.length) in H.
  rewrite length_append in H. simpl in H. lia.
Qed.

(** An explicit path that already ends in [.npy] is written and returned
    as given. *)
Lemma explicit_path_with_suffix png out w size raw cs :
  fs w !! png = Some (ImageFile size raw) ->
  find_contours (spec_binarize raw) = Ok cs ->
  endswith out ".npy" = true ->
  out ∉ write_protected w ->
  exists w1,
    convert_mask_to_npy png (Some out) w = (Ok out, w1)
    /\ fs w1 = <[out := DataFile (encode_npy (annotation_record (strftime (now w)) cs))]>
                 (fs w).
Proof.
  intros Himg Hcs Hend Hw.
  assert (Hname : npy_file_name out = out)
    by (unfold npy_file_name; rewrite Hend; reflexivity).
  destruct (convert_run png (Some out) w size raw cs Himg Hcs) as [lines Hrun].
  { cbn [determine_output_path]. rewrite Hname. exact Hw. }
  revert Hrun. unfold files_after. cbn [determine_output_path].
  rewrite Hname, lookup_insert_eq. intros Hrun.
  eexists. split; [exact Hrun|reflexivity].
Qed.

(** An explicit path without the suffix: the record goes to the path with
    [.npy] appended, and the size query on the given path fails unless a
    file was already there. *)
Lemma explicit_path_without_suffix png out w size raw cs :
  fs w !! png = Some (ImageFile size raw) ->
  find_contours (spec_binarize raw) = Ok cs ->
  endswith out ".npy" = false ->
  out +:+ ".npy" ∉ write_protected w ->
  fs w !! out = None ->
  exists w1,
    convert_mask_to_npy png (Some out) w = (Raise (FileNotFoundError out), w1)
    /\ fs w1 !! out = None
    /\ fs w1 !! (out +:+ ".npy")
       = Some (DataFile (encode_npy (annotation_record (strftime (now w)) cs))).
Proof.
  intros Himg Hcs Hend Hw Hnone.
  assert (Hname : npy_file_name out = out +:+ ".npy")
    by (unfold npy_file_name; rewrite Hend; reflexivity).
  destruct (convert_run png (Some out) w size raw cs Himg Hcs) as [lines Hrun].
  { cbn [determine_output_path]. rewrite Hname. exact Hw. }
  revert Hrun. unfold files_after. cbn [determine_output_path].
  rewrite Hname, lookup_insert_ne by apply append_suffix_differs.
  rewrite Hnone. intros Hrun.
  eexists. split; [exact Hrun|]. cbn [fs].
  rewrite lookup_insert_ne by apply append_suffix_differs.
  rewrite lookup_insert_eq. split; [exact Hnone|reflexivity].
Qed.
End ExplicitPath.

(** C10, at the input [output_path = "out"]: the record is written to
    [out.npy], no file appears at [out], and the call ends with
    [FileNotFoundError] instead of returning the path. *)
Theorem explicit_path_out_fails :
  (convert_mask_to_npy "samples/x.png" (Some "out") sample_world).1
  = Raise (FileNotFoundError "out")
  /\ fs (convert_mask_to_npy "samples/x.png" (Some "out") sample_world).2 !! "out"
     = None
  /\ fs (convert_mask_to_npy "samples/x.png" (Some "out") sample_world).2 !! "out.npy"
     = Some (DataFile (encode_npy
                         (annotation_record "03/07/2024, 09:05:00" [dot_contour]))).
Proof.
  split; [|split].
  - vm_compute. reflexivity.
  - vm_compute. reflexivity.
  - vm_compute. reflexivity.
Qed.

(** ** Contours of a uniform mask *)

Section UniformMask.
Implicit Types (mask : ndarray scalar).

Lemma list_bind_nil {A B} (f : A -> list B) (l : list A) :
  (forall x, x ∈ l -> f x = []) -> l ≫= f = [].
Proof.
  induction l as [|x l IH]; intros H; [reflexivity|].
  cbn. rewrite (H x) by left. apply IH.
  intros y Hy. apply H. right. exact Hy.
Qed.

Lemma square_segments_uniform b r0 c0 : square_segments b b b b r0 c0 = [].
Proof. destruct b; reflexivity. Qed.

Lemma pixel_above_zero mask r c :
  Forall (eq (SInt 0)) (data mask) -> pixel_above mask r c = false.
Proof.
  intros Hall. unfold pixel_above, nd_get.
  destruct (flat_index (shape mask) [r; c]) as [k|]; [|reflexivity].
  destruct (data mask !! k) as [v|] eqn:Hv; [|reflexivity].
  apply list_elem_of_lookup_2 in Hv.
  rewrite list.Forall_forall in Hall. rewrite <- (Hall v Hv). reflexivity.
Qed.

Lemma pixel_above_one mask rows cols r c :
  shape mask = [rows; cols] -> well_shaped mask ->
  Forall (eq (SInt 1)) (data mask) ->
  (r < rows)%nat -> (c < cols)%nat -> pixel_above mask r c = true.
Proof.
  intros Hshape Hwell Hall Hr Hc. unfold pixel_above, nd_get.
  rewrite Hshape. cbn [flat_index size_of foldr].
  apply Nat.ltb_lt in Hr as Hr', Hc as Hc'. rewrite Hr', Hc'.
  unfold well_shaped in Hwell. rewrite Hshape in Hwell.
  cbn [size_of foldr] in Hwell.
  destruct (data mask !! (r * (cols * 1) + (c * 1 + 0))%nat) as [v|] eqn:Hv.
  - apply list_elem_of_lookup_2 in Hv.
    rewrite list.Forall_forall in Hall. rewrite <- (Hall v Hv). reflexivity.
  - apply lookup_ge_None in Hv. nia.
Qed.

Lemma uniform_segments mask rows cols :
  shape mask = [rows; cols] -> well_shaped mask ->
  Forall (eq (SInt 0)) (data mask) \/ Forall (eq (SInt 1)) (data mask) ->
  get_contour_segments mask rows cols = [].
Proof.
  intros Hshape Hwell Hall. unfold get_contour_segments.
  apply list_bind_nil. intros r0 Hr0. apply list_bind_nil. intros c0 Hc0.
  apply elem_of_seq in Hr0, Hc0.
  destruct Hall as [Hzero|Hone].
  - rewrite !pixel_above_zero by exact Hzero. apply square_segments_uniform.
  - rewrite !(pixel_above_one mask rows cols) by (assumption || lia).
    apply square_segments_uniform.
Qed.

Lemma all_positive_threshold (raw : ndarray scalar) :
  Forall (fun v => gt_zero v = true) (data raw) ->
  Forall (eq (SInt 1)) (data (threshold raw)).
Proof.
  intros Hall. rewrite threshold_is_rule. simpl.
  apply List.Forall_forall. intros x Hx.
  apply in_map_iff in Hx. destruct Hx as (v & <- & Hv).
  rewrite List.Forall_forall in Hall.
  unfold threshold_rule. rewrite (Hall v Hv). reflexivity.
Qed.
End UniformMask.

(** C7 as stated fails: a mask of a single pixel is entirely one, yet
    contour extraction refuses it, and the conversion of such an image ends
    with that error and writes no record. *)
Lemma single_pixel_mask_is_refused :
  Forall (eq (SInt 1)) (data (threshold pixel_image))
  /\ find_contours (threshold pixel_image)
     = Raise (ValueError "Input array must be at least 2x2.")
  /\ (convert_mask_to_npy "samples/ROI 1_62.png" None sample_world).1
     = Raise (ValueError "Input array must be at least 2x2.")
  /\ fs (convert_mask_to_npy "samples/ROI 1_62.png" None sample_world).2
       !! "ROI 1_62_seg.npy"
     = None.
Proof.
  split; [|split; [|split]].
  - vm_compute. constructor; [reflexivity|constructor].
  - vm_compute. reflexivity.
  - vm_compute. reflexivity.
  - vm_compute. reflexivity.
Qed.

(** C7, amended. For every two-dimensional mask with at least two rows and
    two columns that is entirely zero or entirely one, contour extraction
    at level 0.5 returns no contour; the record packed from no contour has
    empty x- and y-sequence lists, and that record is what a successful
    conversion of an image with such a mask writes. *)
Theorem uniform_mask_has_no_contours (mask : ndarray scalar) (rows cols : nat) :
  shape mask = [rows; cols] ->
  well_shaped mask ->
  (2 <= rows)%nat -> (2 <= cols)%nat ->
  Forall (eq (SInt 0)) (data mask) \/ Forall (eq (SInt 1)) (data mask) ->
  find_contours mask = Ok []
  /\ (forall t w, exists w',
        build_annotation t [] w
        = (Ok (mk_ndarray object_ [1; 4]%nat
                 [PStr t; PStr "converted from PNG"; PList []; PList []]), w'))
  /\ (forall raw png out size w p w1,
        threshold raw = mask ->
        fs w !! png = Some (ImageFile size raw) ->
        convert_mask_to_npy png out w = (Ok p, w1) ->
        fs w1 !! npy_file_name p
        = Some (DataFile
                  (encode_npy
                     (mk_ndarray object_ [1; 4]%nat
                        [PStr (strftime (now w)); PStr "converted from PNG";
                         PList []; PList []])))).
Proof.
  intros Hshape Hwell Hrows Hcols Hall.
  assert (Hfind : find_contours mask = Ok []).
  { unfold find_contours. rewrite Hshape.
    replace (rows <? 2)%nat with false by (symmetry; apply Nat.ltb_ge; lia).
    replace (cols <? 2)%nat with false by (symmetry; apply Nat.ltb_ge; lia).
    cbn [orb]. rewrite (uniform_segments mask rows cols Hshape Hwell Hall).
    reflexivity. }
  split; [exact Hfind|]. split.
  - intros t w. destruct (build_annotation_run t [] w) as [lines Hrun].
    exists (with_console w lines). exact Hrun.
  - intros raw png out size w p w1 Hmask Himg Hrun.
    destruct (convert_inv png out w p w1 Hrun)
      as (size' & raw' & cs & Himg' & Hcs & Hp & _ & Hfs & _ & _).
    rewrite Himg in Himg'. injection Himg' as _ <-.
    rewrite <- threshold_is_rule, Hmask, Hfind in Hcs. injection Hcs as <-.
    rewrite Hfs, Hp. unfold files_after. apply lookup_insert_eq.
Qed.

(** ** The driver *)

Section Driver.
Implicit Types (w : World) (P : output -> Prop).

Lemma emits_nothing {A} P (m : M A) :
  (forall w, console (m w).2 = console w) -> emits P m.
Proof.
  intros H w. exists []. rewrite H, app_nil_r. split; [reflexivity|constructor].
Qed.

Lemma emits_ret {A} P (a : A) : emits P (mret a).
Proof. apply emits_nothing. reflexivity. Qed.

Lemma emits_lift {A} P (r : result A) : emits P (lift r).
Proof. apply emits_nothing. reflexivity. Qed.

Lemma emits_print P o : P o -> emits P (print o).
Proof. intros Ho w. exists [o]. split; [reflexivity|repeat constructor; exact Ho]. Qed.

Lemma emits_bind {A B} P (m : M A) (k : A -> M B) :
  emits P m -> (forall a, emits P (k a)) -> emits P (m ≫= k).
Proof.
  intros Hm Hk w. rewrite bind_run.
  destruct (Hm w) as (l1 & Hc1 & Hl1).
  destruct (m w) as [[a|e] w1]; simpl in Hc1.
  - destruct (Hk a w1) as (l2 & Hc2 & Hl2).
    exists (l1 ++ l2). rewrite Hc2, Hc1, app_assoc.
    split; [reflexivity|]. apply Forall_app; split; assumption.
  - exists l1. split; assumption.
Qed.

Lemma emits_try_except {A} P (body : M A) (handler : exn -> M A) :
  emits P body -> (forall e, emits P (handler e)) ->
  emits P (try_except body handler).
Proof.
  intros Hb Hh w. unfold try_except.
  destruct (Hb w) as (l1 & Hc1 & Hl1).
  destruct (body w) as [[a|e] w1]; simpl in Hc1.
  - exists l1. split; assumption.
  - destruct (Hh e w1) as (l2 & Hc2 & Hl2).
    exists (l1 ++ l2). rewrite Hc2, Hc1, app_assoc.
    split; [reflexivity|]. apply Forall_app; split; assumption.
Qed.

Lemma emits_image_open P path : emits P (image_open_array path).
Proof.
  apply emits_nothing. intros w. unfold image_open_array.
  destruct (fs w !! path) as [[? ?|?]|]; reflexivity.
Qed.

Lemma emits_getsize P path : emits P (os_path_getsize path).
Proof.
  apply emits_nothing. intros w. unfold os_path_getsize.
  destruct (fs w !! path); reflexivity.
Qed.

Lemma emits_np_save P file arr : emits P (np_save file arr).
Proof.
  apply emits_nothing. intros w. unfold np_save.
  destruct (decide _); reflexivity.
Qed.

Lemma emits_np_load P file : emits P (np_load file).
Proof.
  apply emits_nothing. intros w. unfold np_load.
  destruct (fs w !! file) as [[? ?|bytes]|]; try reflexivity.
  destruct (decode_npy bytes); reflexivity.
Qed.

Lemma emits_strftime_now P : emits P strftime_now.
Proof. apply emits_nothing. reflexivity. Qed.

Lemma emits_exists P path : emits P (os_path_exists path).
Proof. apply emits_nothing. reflexivity. Qed.

Ltac emits_step :=
  first
    [ apply emits_ret | apply emits_lift | apply emits_strftime_now
    | apply emits_image_open | apply emits_getsize | apply emits_np_save
    | apply emits_np_load | apply emits_exists
    | apply emits_print; reflexivity
    | apply emits_bind; [|intros ?] ].

Lemma emits_binarizer raw : emits not_processing (binarizer raw).
Proof.
  unfold binarizer, binary_branch, non_binary_branch.
  destruct (_ =? _)%nat; repeat emits_step.
Qed.

Lemma emits_annotation_loop contours :
  forall i annotation, emits not_processing (annotation_loop i contours annotation).
Proof.
  induction contours as [|c rest IH]; intros i annotation; cbn [annotation_loop].
  - apply emits_ret.
  - repeat emits_step. apply IH.
Qed.

Lemma emits_convert png out : emits not_processing (convert_mask_to_npy png out).
Proof.
  unfold convert_mask_to_npy, load_mask, pack_and_save, build_annotation.
  repeat first [ apply emits_binarizer | apply emits_annotation_loop | emits_step ].
Qed.

Lemma emits_convert_and_verify png : emits not_processing (convert_and_verify png).
Proof.
  unfold convert_and_verify.
  repeat first
    [ apply emits_convert
    | match goal with |- emits _ (if ?b then _ else _) => destruct b end
    | emits_step ].
Qed.

Lemma omap_not_processing lines :
  Forall not_processing lines -> omap processing_of lines = [].
Proof.
  induction 1 as [|o lines Ho _ IH]; [reflexivity|].
  cbn. rewrite Ho. exact IH.
Qed.

(** A missing path: one message, nothing else. *)
Lemma process_missing_path p w :
  fs w !! p = None ->
  process_path p w
  = (Ok tt, with_console w [OutRule; OutProcessing p; OutRule; OutFileNotFound p]).
Proof.
  intros Hnone. unfold process_path.
  rewrite bind_run. unfold print at 1.
  rewrite bind_run. unfold print at 1.
  rewrite bind_run. unfold print at 1.
  rewrite bind_run. unfold os_path_exists at 1. cbn [fs with_console].
  rewrite Hnone.
  rewrite bool_decide_eq_false_2 by (intros [? ?]; discriminate).
  cbn [negb]. unfold print. rewrite !with_console_app. reflexivity.
Qed.

(** An existing path: the [try] body runs after the three header lines,
    and an exception it raises is reported and swallowed. *)
Lemma process_existing_path p w :
  is_Some (fs w !! p) ->
  process_path p w
  = match convert_and_verify p (with_console w [OutRule; OutProcessing p; OutRule]) with
    | (Ok _, w1) => (Ok tt, w1)
    | (Raise e, w1) =>
        (Ok tt, with_console w1 [OutConversionError p e; OutTraceback e])
    end.
Proof.
  intros Hsome. unfold process_path.
  rewrite bind_run. unfold print at 1.
  rewrite bind_run. unfold print at 1.
  rewrite bind_run. unfold print at 1.
  rewrite bind_run. unfold os_path_exists at 1. cbn [fs with_console].
  rewrite bool_decide_eq_true_2 by exact Hsome.
  cbn [negb]. rewrite !with_console_app. cbn [app].
  unfold try_except.
  destruct (convert_and_verify p _) as [[[]|e] w1]; [reflexivity|].
  rewrite bind_run. unfold print. rewrite with_console_app. reflexivity.
Qed.

(** One iteration never raises, and announces exactly its own path. *)
Lemma process_path_total p w :
  exists w',
    process_path p w = (Ok tt, w')
    /\ omap processing_of (console w') = omap processing_of (console w) ++ [p].
Proof.
  destruct (fs w !! p) as [f|] eqn:Hf.
  - rewrite process_existing_path by (rewrite Hf; eauto).
    destruct (emits_convert_and_verify p
                (with_console w [OutRule; OutProcessing p; OutRule]))
      as (lines & Hc & Hl).
    destruct (convert_and_verify p _) as [[[]|e] w1]; simpl in Hc.
    + exists w1. split; [reflexivity|].
      rewrite Hc, !omap_app, (omap_not_processing lines Hl), app_nil_r.
      reflexivity.
    + eexists. split; [reflexivity|]. cbn [console with_console].
      rewrite Hc, !omap_app, (omap_not_processing lines Hl), !app_nil_r.
      reflexivity.
  - rewrite process_missing_path by exact Hf.
    eexists. split; [reflexivity|]. cbn [console with_console].
    rewrite omap_app. reflexivity.
Qed.

Lemma for_each_process_path paths :
  forall w, exists w',
    for_each paths process_path w = (Ok tt, w')
    /\ omap processing_of (console w') = omap processing_of (console w) ++ paths.
Proof.
  induction paths as [|p paths IH]; intros w.
  - exists w. split; [reflexivity|]. rewrite app_nil_r. reflexivity.
  - destruct (process_path_total p w) as (w1 & Hp & Hc1).
    destruct (IH w1) as (w2 & Hrest & Hc2).
    exists w2. cbn [for_each]. rewrite bind_run, Hp.
    split; [exact Hrest|]. rewrite Hc2, Hc1, <- app_assoc. reflexivity.
Qed.

Lemma run_batch_total paths w :
  exists w',
    run_batch paths w = (Ok tt, w')
    /\ omap processing_of (console w') = omap processing_of (console w) ++ paths.
Proof.
  destruct (for_each_process_path paths w) as (w1 & Hloop & Hc).
  unfold run_batch. rewrite bind_run, Hloop.
  eexists. split; [reflexivity|]. cbn [console with_console].
  rewrite !omap_app, Hc. cbn. rewrite !app_nil_r. reflexivity.
Qed.
End Driver.

(** C5. The driver never raises, whatever the files are: every path of the
    list is announced, in order and once, so each one is reached whatever
    happened to the paths before it, and the exit status is zero.  For a
    path that does not exist the iteration prints the file-not-found
    message and ends; when the conversion or the verification of a path
    raises, the iteration prints the error and the trace and ends
    normally. *)
Theorem driver_isolates_failures (paths : list string) (w : World) :
  (exists w',
     run_batch paths w = (Ok tt, w')
     /\ omap processing_of (console w') = omap processing_of (console w) ++ paths)
  /\ exit_status (run_batch paths w).1 = 0
  /\ exit_status (main w).1 = 0
  /\ (forall p w0,
        fs w0 !! p = None ->
        process_path p w0
        = (Ok tt,
           with_console w0 [OutRule; OutProcessing p; OutRule; OutFileNotFound p]))
  /\ (forall p w0 e w1,
        is_Some (fs w0 !! p) ->
        convert_and_verify p (with_console w0 [OutRule; OutProcessing p; OutRule])
        = (Raise e, w1) ->
        process_path p w0
        = (Ok tt, with_console w1 [OutConversionError p e; OutTraceback e])).
Proof.
  split; [apply run_batch_total|].
  split; [destruct (run_batch_total paths w) as (w' & -> & _); reflexivity|].
  split; [unfold main; destruct (run_batch_total png_paths w) as (w' & -> & _);
          reflexivity|].
  split; [intros p w0; apply process_missing_path|].
  intros p w0 e w1 Hsome Hrun.
  rewrite (process_existing_path p w0 Hsome), Hrun. reflexivity.
Qed.

(** ** The theorems at sample inputs *)

Lemma binarizer_thresholds_witness :
  nd_get signed_image [0; 0]%nat = Some (SInt (-3))
  /\ nd_get signed_image [1; 0]%nat = Some (SInt 7)
  /\ exists mask w',
       binarizer signed_image empty_world = (Ok mask, w')
       /\ nd_get mask [0; 0]%nat = Some (SInt 0)
       /\ nd_get mask [1; 0]%nat = Some (SInt 1).
Proof.
  split; [reflexivity|]. split; [reflexivity|].
  destruct (binarizer_thresholds signed_image empty_world)
    as (mask & w' & Hrun & _ & _ & Hint & Hneg & _).
  exists mask, w'. split; [exact Hrun|]. split.
  - apply (Hneg [0; 0]%nat (-3)); [reflexivity|lia].
  - apply (Hint [1; 0]%nat 7). reflexivity.
Defined.

Lemma annotation_record_invariant_witness :
  [dot_contour] !! 0%nat = Some dot_contour
  /\ exists (xs ys : list (list Z)) x y,
       xs !! 0%nat = Some x /\ ys !! 0%nat = Some y
       /\ x = [1; 0; 1; 1; 1] /\ y = [1; 1; 0; 1; 1]
       /\ length x = length y.
Proof.
  split; [reflexivity|].
  pose proof (annotation_record_invariant "03/07/2024, 09:05:00" [dot_contour]
                empty_world) as H.
  cbv zeta in H. destruct H as (xs & ys & w' & _ & _ & _ & _ & _ & H).
  destruct (H 0%nat dot_contour eq_refl) as (x & y & Hx & Hy & Hxc & Hyc & Hlen & _).
  exists xs, ys, x, y.
  split; [exact Hx|]. split; [exact Hy|].
  split; [rewrite Hxc; reflexivity|].
  split; [rewrite Hyc; reflexivity|exact Hlen].
Defined.

Lemma packer_stores_truncated_coordinates_witness :
  int64_range (float_numerator true 6755399441055744 (-52) ÷ float_denominator (-52))
  /\ astype_int (S754_finite true 6755399441055744 (-52)) = -1.
Proof.
  assert (Hrange : int64_range
                     (float_numerator true 6755399441055744 (-52)
                      ÷ float_denominator (-52)))
    by (vm_compute; split; intros H; discriminate H).
  split; [exact Hrange|].
  destruct (packer_stores_truncated_coordinates "t" [] empty_world)
    as (_ & _ & Htrunc).
  rewrite (Htrunc true 6755399441055744%positive (-52) Hrange). reflexivity.
Defined.

Lemma save_load_roundtrip_witness :
  (npy_file_name "x_seg.npy" ∉ write_protected sample_world)
  /\ exists w1,
       np_save "x_seg.npy"
         (annotation_record "03/07/2024, 09:05:00" [dot_contour]) sample_world
       = (Ok tt, w1)
       /\ np_load "x_seg.npy" w1
          = (Ok (mk_ndarray object_ [1; 4]%nat
                   [PStr "03/07/2024, 09:05:00"; PStr "converted from PNG";
                    PList [[1; 0; 1; 1; 1]]; PList [[1; 1; 0; 1; 1]]]), w1).
Proof.
  assert (Hw : npy_file_name "x_seg.npy" ∉ write_protected sample_world)
    by (simpl; apply not_elem_of_empty).
  split; [exact Hw|].
  destruct (save_load_roundtrip "03/07/2024, 09:05:00" [dot_contour] "x_seg.npy"
              sample_world Hw) as ((w1 & Hsave & Hload) & _).
  exists w1. split; [exact Hsave|exact Hload].
Defined.

Lemma driver_isolates_failures_witness :
  fs sample_world !! "samples/ROI 1_1 mask.png" = None
  /\ process_path "samples/ROI 1_1 mask.png" sample_world
     = (Ok tt,
        with_console sample_world
          [OutRule; OutProcessing "samples/ROI 1_1 mask.png"; OutRule;
           OutFileNotFound "samples/ROI 1_1 mask.png"])
  /\ is_Some (fs sample_world !! "samples/ROI 1_20.png")
  /\ process_path "samples/ROI 1_20.png" sample_world
     = (Ok tt,
        with_console sample_world
          [OutRule; OutProcessing "samples/ROI 1_20.png"; OutRule;
           OutLoading "samples/ROI 1_20.png";
           OutConversionError "samples/ROI 1_20.png"
             (UnidentifiedImageError "samples/ROI 1_20.png");
           OutTraceback (UnidentifiedImageError "samples/ROI 1_20.png")]).
Proof.
  destruct (driver_isolates_failures png_paths sample_world)
    as (_ & _ & _ & Hmissing & Hraise).
  assert (Hnone : fs sample_world !! "samples/ROI 1_1 mask.png" = None)
    by reflexivity.
  assert (Hsome : is_Some (fs sample_world !! "samples/ROI 1_20.png"))
    by (eexists; reflexivity).
  split; [exact Hnone|]. split; [exact (Hmissing _ _ Hnone)|].
  split; [exact Hsome|].
  apply (Hraise "samples/ROI 1_20.png" sample_world
           (UnidentifiedImageError "samples/ROI 1_20.png")
           (with_console sample_world
              [OutRule; OutProcessing "samples/ROI 1_20.png"; OutRule;
               OutLoading "samples/ROI 1_20.png"]) Hsome).
  reflexivity.
Defined.

Lemma default_output_path_witness :
  splitext (basename "samples/x.png") = ("x", ".png")
  /\ determine_output_path "samples/x.png" None = "x" +:+ "_seg.npy"
  /\ (convert_mask_to_npy "samples/x.png" None sample_world).1 = Ok "x_seg.npy"
  /\ "x_seg.npy" = determine_output_path "samples/x.png" None.
Proof.
  destruct (default_output_path "samples/x.png")
    as (Hbase & Hstem & _ & _ & Hret).
  assert (Hsplit : splitext (basename "samples/x.png") = ("x", ".png"))
    by reflexivity.
  assert (Hok : (convert_mask_to_npy "samples/x.png" None sample_world).1
                = Ok "x_seg.npy") by (vm_compute; reflexivity).
  split; [exact Hsplit|]. split; [exact (Hbase "x" ".png" Hsplit)|].
  split; [exact Hok|].
  destruct (convert_mask_to_npy "samples/x.png" None sample_world)
    as [r w'] eqn:Hrun.
  simpl in Hok. subst r.
  pose proof (Hret None sample_world "x_seg.npy" w' Hrun) as Hreturned.
  rewrite Hreturned.
  rewrite (Hstem "samples" "x"%char EmptyString "png" eq_refl
             ltac:(discriminate) eq_refl eq_refl eq_refl).
  reflexivity.
Defined.

Lemma uniform_mask_has_no_contours_witness :
  shape (threshold bright_image) = [2; 2]%nat
  /\ Forall (eq (SInt 1)) (data (threshold bright_image))
  /\ find_contours (threshold bright_image) = Ok [].
Proof.
  assert (Hones : Forall (eq (SInt 1)) (data (threshold bright_image)))
    by (apply all_positive_threshold; repeat constructor).
  split; [reflexivity|]. split; [exact Hones|].
  apply (uniform_mask_has_no_contours (threshold bright_image) 2 2);
    [reflexivity|reflexivity|lia|lia|right; exact Hones].
Defined.

(** ** The definitions on small inputs *)

Example strftime_sample : strftime sample_clock = "03/07/2024, 09:05:00".
Proof. reflexivity. Qed.

Example basename_samples :
  basename "samples/ROI 1_1 mask.png" = "ROI 1_1 mask.png"
  /\ basename "x.png" = "x.png"
  /\ basename "samples/" = EmptyString.
Proof. repeat split. Qed.

Example splitext_samples :
  splitext "ROI 1_1 mask.png" = ("ROI 1_1 mask", ".png")
  /\ splitext "archive.tar.gz" = ("archive.tar", ".gz")
  /\ splitext ".hidden" = (".hidden", EmptyString)
  /\ splitext "noext" = ("noext", EmptyString).
Proof. repeat split. Qed.

Example driver_output_names :
  map (fun p => determine_output_path p None) png_paths
  = ["ROI 1_1 mask_seg.npy"; "ROI 1_10_seg.npy"; "ROI 1_20_seg.npy";
     "ROI 1_62_seg.npy"].
Proof. reflexivity. Qed.

Example npy_file_name_samples :
  npy_file_name "x_seg.npy" = "x_seg.npy" /\ npy_file_name "out" = "out.npy".
Proof. split; reflexivity. Qed.

(** The cast drops the fraction on both sides of zero. *)
Example astype_int_samples :
  map astype_int [half_to_float 3; half_to_float (-3); half_to_float 4;
                  float_zero; S754_nan; S754_infinity false]
  = [1; -1; 2; 0; INT64_MIN; INT64_MIN].
Proof. vm_compute. reflexivity. Qed.

(** Zero, negative values and NaN are not above zero. *)
Example gt_zero_samples :
  map gt_zero [SInt 255; SInt 0; SInt (-7); SBool true; SBool false;
               SFloat (half_to_float 1); SFloat (half_to_float (-1));
               SFloat float_zero; SFloat S754_nan]
  = [true; false; false; true; false; true; false; false; false].
Proof. vm_compute. reflexivity. Qed.

Example threshold_sample :
  threshold signed_image = mk_ndarray uint8 [2; 2]%nat (map SInt [0; 0; 1; 1]).
Proof. reflexivity. Qed.

(** One bright pixel is enclosed by one closed contour through the four
    edge midpoints around it. *)
Example find_contours_dot : find_contours (threshold dot_image) = Ok [dot_contour].
Proof. vm_compute. reflexivity. Qed.

(** Section 8: a filled square inside the grid gives exactly one contour,
    whose x- and y-sequences have the same positive length. *)
Example find_contours_square :
  exists c,
    find_contours
      (mk_ndarray uint8 [4; 4]%nat
         (map SInt [0; 0; 0; 0;  0; 1; 1; 0;  0; 1; 1; 0;  0; 0; 0; 0]))
    = Ok [c]
    /\ length (x_coords_of c) = 9%nat /\ length (y_coords_of c) = 9%nat.
Proof. eexists. split; [vm_compute; reflexivity|]. split; reflexivity. Qed.

Example decode_encode_sample :
  decode_npy (encode_npy (annotation_record "03/07/2024, 09:05:00" [dot_contour]))
  = Some (mk_ndarray object_ [1; 4]%nat
            [PStr "03/07/2024, 09:05:00"; PStr "converted from PNG";
             PList [[1; 0; 1; 1; 1]]; PList [[1; 1; 0; 1; 1]]]).
Proof. vm_compute. reflexivity. Qed.

(** The whole batch on the sample directory: one path is missing, one is
    converted and verified, two fail inside the conversion. *)
Example main_sample_run :
  (main sample_world).1 = Ok tt
  /\ omap processing_of (console (main sample_world).2) = png_paths
  /\ fs (main sample_world).2 !! "ROI 1_10_seg.npy"
     = Some (DataFile
               (encode_npy (annotation_record "03/07/2024, 09:05:00" [dot_contour])))
  /\ fs (main sample_world).2 !! "ROI 1_62_seg.npy" = None.
Proof.
  split; [vm_compute; reflexivity|].
  split; [vm_compute; reflexivity|].
  split; vm_compute; reflexivity.
Qed.

(** * Further properties of the conversion and the driver *)

(** ** Every outcome of one conversion *)

Section Outcomes.
Implicit Types (w : World).

(** The five ways a conversion can go, with the world it leaves. *)
Lemma convert_outcome png out w :
  (fs w !! png = None
   /\ convert_mask_to_npy png out w
      = (Raise (FileNotFoundError png), with_console w [OutLoading png]))
  \/ (exists bytes,
        fs w !! png = Some (DataFile bytes)
        /\ convert_mask_to_npy png out w
           = (Raise (UnidentifiedImageError png), with_console w [OutLoading png]))
  \/ (exists size raw e lines,
        fs w !! png = Some (ImageFile size raw)
        /\ find_contours (spec_binarize raw) = Raise e
        /\ convert_mask_to_npy png out w = (Raise e, with_console w lines))
  \/ (exists size raw cs lines,
        fs w !! png = Some (ImageFile size raw)
        /\ find_contours (spec_binarize raw) = Ok cs
        /\ target_of png out ∈ write_protected w
        /\ convert_mask_to_npy png out w
           = (Raise (PermissionError (target_of png out)), with_console w lines))
  \/ (exists size raw cs lines,
        fs w !! png = Some (ImageFile size raw)
        /\ find_contours (spec_binarize raw) = Ok cs
        /\ (target_of png out ∉ write_protected w)
        /\ convert_mask_to_npy png out w
           = (match files_after png out cs w !! determine_output_path png out with
              | Some _ => Ok (determine_output_path png out)
              | None => Raise (FileNotFoundError (determine_output_path png out))
              end,
              mk_World (files_after png out cs w) (write_protected w) (now w)
                (console w ++ lines))).
Proof.
  destruct (fs w !! png) as [[size raw|bytes]|] eqn:Himg.
  - right; right.
    destruct (find_contours (spec_binarize raw)) as [cs|e] eqn:Hcs.
    + right.
      destruct (decide (target_of png out ∈ write_protected w)) as [Hin|Hout].
      * left. unfold convert_mask_to_npy.
        rewrite bind_run, load_mask_run, Himg, bind_run.
        match goal with |- context [binarizer raw ?w0] =>
          destruct (binarizer_run raw w0) as [line ->] end.
        unfold pack_and_save.
        rewrite bind_run, Hcs. unfold lift at 1.
        rewrite bind_run. unfold print at 1.
        rewrite bind_run. unfold strftime_now at 1.
        rewrite bind_run.
        match goal with |- context [build_annotation ?t cs ?w0] =>
          destruct (build_annotation_run t cs w0) as [lines ->] end.
        rewrite bind_run. unfold print at 1.
        rewrite bind_run. unfold np_save at 1. cbn [write_protected with_console].
        fold (target_of png out).
        destruct (decide _) as [_|Hn]; [|contradiction].
        rewrite !with_console_app.
        exists size, raw, cs. eexists. repeat split; assumption.
      * right. destruct (convert_run png out w size raw cs Himg Hcs Hout)
          as [lines Hrun].
        exists size, raw, cs, lines. repeat split; assumption.
    + left. unfold convert_mask_to_npy.
      rewrite bind_run, load_mask_run, Himg, bind_run.
      match goal with |- context [binarizer raw ?w0] =>
        destruct (binarizer_run raw w0) as [line ->] end.
      unfold pack_and_save. rewrite bind_run, Hcs. unfold lift at 1.
      rewrite with_console_app.
      exists size, raw, e. eexists. repeat split; assumption.
  - right; left. exists bytes. split; [reflexivity|].
    unfold convert_mask_to_npy. rewrite bind_run, load_mask_run, Himg. reflexivity.
  - left. split; [reflexivity|].
    unfold convert_mask_to_npy. rewrite bind_run, load_mask_run, Himg. reflexivity.
Qed.
End Outcomes.

(** ** More on the default output name *)

Section DefaultName.
Implicit Types (s p : string) (c : ascii).

Lemma rfind_from_0_cases c s : rfind_from c s 0 = -1 \/ 0 <= rfind_from c s 0.
Proof.
  induction s as [|a r IH]; [left; reflexivity|].
  cbn [rfind_from]. rewrite (rfind_from_shift c r (0 + 1)) by lia.
  destruct (Z.leb_spec 0 (rfind_from c r 0)) as [Hr|Hr].
  - destruct (Z.leb_spec 0 (0 + 1 + rfind_from c r 0)); [right|]; lia.
  - change (0 <=? -1) with false. cbv iota.
    destruct (Ascii.eqb a c); [right; lia|left; reflexivity].
Qed.

Lemma rfind_cons c a r :
  rfind c (String a r)
  = if 0 <=? rfind c r then 1 + rfind c r
    else if Ascii.eqb a c then 0 else -1.
Proof.
  unfold rfind. cbn [rfind_from].
  rewrite (rfind_from_shift c r (0 + 1)) by lia.
  destruct (Z.leb_spec 0 (rfind_from c r 0)) as [Hr|Hr].
  - destruct (Z.leb_spec 0 (0 + 1 + rfind_from c r 0)); lia.
  - change (0 <=? -1) with false. reflexivity.
Qed.

Lemma rfind_cases c s : rfind c s = -1 \/ 0 <= rfind c s.
Proof. apply rfind_from_0_cases. Qed.

(** Nothing after the last occurrence holds the character. *)
Lemma rfind_after_last c s :
  rfind c (str_drop (Z.to_nat (rfind c s + 1)) s) = -1.
Proof.
  induction s as [|a r IH]; [reflexivity|].
  rewrite rfind_cons.
  destruct (Z.leb_spec 0 (rfind c r)) as [Hr|Hr].
  - replace (Z.to_nat (1 + rfind c r + 1)) with (S (Z.to_nat (rfind c r + 1)))
      by lia.
    exact IH.
  - assert (Hnone : rfind c r = -1) by (destruct (rfind_cases c r); lia).
    destruct (Ascii.eqb a c) eqn:Ha.
    + change (Z.to_nat (0 + 1)) with 1%nat. exact Hnone.
    + change (Z.to_nat (-1 + 1)) with 0%nat. cbn [str_drop].
      rewrite rfind_cons, Hnone, Ha. reflexivity.
Qed.

(** The character found is the one looked for. *)
Lemma rfind_get c s :
  0 <= rfind c s -> String.get (Z.to_nat (rfind c s)) s = Some c.
Proof.
  induction s as [|a r IH]; [unfold rfind; simpl; lia|].
  rewrite rfind_cons.
  destruct (Z.leb_spec 0 (rfind c r)) as [Hr|Hr].
  - intros _. replace (Z.to_nat (1 + rfind c r)) with (S (Z.to_nat (rfind c r)))
      by lia.
    exact (IH Hr).
  - destruct (Ascii.eqb_spec a c) as [->|Hne]; [reflexivity|lia].
Qed.

Lemma rfind_str_take c s : forall n, rfind c s = -1 -> rfind c (str_take n s) = -1.
Proof.
  induction s as [|a r IH]; intros n Hs; [destruct n; reflexivity|].
  destruct n as [|n]; [reflexivity|].
  rewrite rfind_cons in Hs. cbn [str_take]. rewrite rfind_cons.
  destruct (Z.leb_spec 0 (rfind c r)) as [Hr|Hr]; [lia|].
  assert (Hnone : rfind c r = -1) by (destruct (rfind_cases c r); lia).
  rewrite (IH n Hnone). change (0 <=? -1) with false. cbv iota.
  destruct (Ascii.eqb a c); [lia|reflexivity].
Qed.

Lemma rfind_append_absent c s1 s2 :
  rfind c s1 = -1 -> rfind c s2 = -1 -> rfind c (s1 +:+ s2) = -1.
Proof.
  intros H1 H2. unfold rfind in *. rewrite rfind_from_app by lia.
  rewrite H2. exact H1.
Qed.

Lemma basename_no_sep p : rfind sep (basename p) = -1.
Proof. apply rfind_after_last. Qed.

Lemma basename_bare p : rfind sep p = -1 -> basename p = p.
Proof. intros H. unfold basename. rewrite H. apply str_drop_0. Qed.

Lemma splitext_root_no_sep p : rfind sep p = -1 -> rfind sep (splitext p).1 = -1.
Proof.
  intros H. unfold splitext. destruct (_ && _); simpl; [|exact H].
  apply rfind_str_take, H.
Qed.

Lemma default_name_no_sep p : rfind sep (determine_output_path p None) = -1.
Proof.
  unfold determine_output_path.
  apply rfind_append_absent; [|reflexivity].
  apply splitext_root_no_sep, basename_no_sep.
Qed.

Lemma str_take_drop s : forall n, str_take n s +:+ str_drop n s = s.
Proof.
  induction s as [|a r IH]; intros [|n]; try reflexivity.
  cbn [str_take str_drop]. rewrite append_cons, IH. reflexivity.
Qed.

Lemma append_inj_l s a b : s +:+ a = s +:+ b -> a = b.
Proof.
  induction s as [|x r IH]; [exact (fun H => H)|].
  rewrite !append_cons. intros H. injection H as H. exact (IH H).
Qed.

Lemma str_drop_get s : forall n a,
  String.get n s = Some a -> exists r, str_drop n s = String a r.
Proof.
  induction s as [|x r IH]; intros n a H; [destruct n; discriminate|].
  destruct n as [|n].
  - injection H as ->. exists r. reflexivity.
  - exact (IH n a H).
Qed.

Lemma append_seg_differs p : p +:+ "_seg.npy" <> p.
Proof.
  intros H. apply (f_equal String.length) in H.
  rewrite length_append in H. simpl in H. lia.
Qed.

Lemma default_name_differs p : determine_output_path p None <> p.
Proof.
  intros Heq.
  destruct (rfind_cases sep p) as [Hbare|Hdir].
  - revert Heq. unfold determine_output_path.
    rewrite (basename_bare p Hbare). unfold splitext. rewrite Hbare.
    destruct (_ && _) eqn:Hcond; cbn [fst].
    + apply andb_prop in Hcond. destruct Hcond as [Hdot _].
      apply Z.ltb_lt in Hdot.
      intros Heq.
      rewrite <- (str_take_drop p (Z.to_nat (rfind extsep p))) in Heq at 3.
      apply append_inj_l in Heq.
      destruct (str_drop_get p _ _ (rfind_get extsep p ltac:(lia))) as [r Hr].
      rewrite Hr in Heq. discriminate Heq.
    + apply append_seg_differs.
  - pose proof (default_name_no_sep p) as Hno. rewrite Heq in Hno. lia.
Qed.

Lemma default_target p : target_of p None = determine_output_path p None.
Proof. unfold target_of. apply default_name_has_extension. Qed.
End DefaultName.

(** X1. Whatever the input path, the default output name holds no
    directory separator and already ends in [.npy]: the record of a batch
    run lands in the working directory under exactly the computed name. *)
Theorem default_output_is_bare_npy_name (png_path : string) :
  rfind sep (determine_output_path png_path None) = -1
  /\ endswith (determine_output_path png_path None) ".npy" = true
  /\ npy_file_name (determine_output_path png_path None)
     = determine_output_path png_path None.
Proof.
  split; [apply default_name_no_sep|].
  assert (H := default_name_has_extension (splitext (basename png_path)).1).
  split; [|exact H].
  unfold npy_file_name in H. unfold determine_output_path.
  destruct (endswith _ ".npy"); [reflexivity|].
  exfalso. exact (append_suffix_differs _ H).
Qed.

(** X2. The directory of the input plays no part in the default output
    name: [dir/name] and [name] get the same one, so equally named inputs
    from different directories are written to the same file. *)
Theorem default_output_ignores_directory (dir name : string) :
  rfind sep name = -1 ->
  determine_output_path (dir +:+ String sep name) None
  = determine_output_path name None.
Proof.
  intros Hname. unfold determine_output_path.
  rewrite (basename_join dir name Hname), (basename_bare name Hname).
  reflexivity.
Qed.

Lemma default_output_ignores_directory_witness :
  rfind sep "a.png" = -1
  /\ determine_output_path "first/a.png" None
     = determine_output_path "second/dir/a.png" None.
Proof.
  assert (H : rfind sep "a.png" = -1) by reflexivity.
  split; [exact H|].
  exact (eq_trans (default_output_ignores_directory "first" "a.png" H)
           (eq_sym (default_output_ignores_directory "second/dir" "a.png" H))).
Defined.

(** ** Which files a computation can change *)

Section Confined.
Implicit Types (w : World) (T : string -> Prop).

Lemma confined_unchanged {A} T (m : M A) :
  (forall w, fs (m w).2 = fs w
             /\ write_protected (m w).2 = write_protected w
             /\ now (m w).2 = now w) ->
  confined T m.
Proof.
  intros H w. destruct (H w) as (Hfs & Hwp & Hnow).
  split; [intros q _; rewrite Hfs; reflexivity|]. split; assumption.
Qed.

Lemma confined_ret {A} T (a : A) : confined T (mret a).
Proof. apply confined_unchanged. intros w. repeat split. Qed.

Lemma confined_lift {A} T (r : result A) : confined T (lift r).
Proof. apply confined_unchanged. intros w. repeat split. Qed.

Lemma confined_print T o : confined T (print o).
Proof. apply confined_unchanged. intros w. repeat split. Qed.

Lemma confined_strftime_now T : confined T strftime_now.
Proof. apply confined_unchanged. intros w. repeat split. Qed.

Lemma confined_exists T path : confined T (os_path_exists path).
Proof. apply confined_unchanged. intros w. repeat split. Qed.

Lemma confined_getsize T path : confined T (os_path_getsize path).
Proof.
  apply confined_unchanged. intros w. unfold os_path_getsize.
  destruct (fs w !! path); repeat split.
Qed.

Lemma confined_image_open T path : confined T (image_open_array path).
Proof.
  apply confined_unchanged. intros w. unfold image_open_array.
  destruct (fs w !! path) as [[? ?|?]|]; repeat split.
Qed.

Lemma confined_np_load T file : confined T (np_load file).
Proof.
  apply confined_unchanged. intros w. unfold np_load.
  destruct (fs w !! file) as [[? ?|bytes]|]; try (repeat split; fail).
  destruct (decode_npy bytes); repeat split.
Qed.

Lemma confined_np_save T file arr :
  T (npy_file_name file) -> confined T (np_save file arr).
Proof.
  intros HT w. unfold np_save.
  destruct (decide _); [repeat split|].
  cbn [snd fs write_protected now]. split; [|split; reflexivity].
  intros q Hq. apply lookup_insert_ne. intros Heq. apply Hq.
  rewrite <- Heq. exact HT.
Qed.

Lemma confined_bind {A B} T (m : M A) (k : A -> M B) :
  confined T m -> (forall a, confined T (k a)) -> confined T (m ≫= k).
Proof.
  intros Hm Hk w. rewrite bind_run.
  destruct (Hm w) as (Hfs & Hwp & Hnow).
  destruct (m w) as [[a|e] w1]; cbn [snd] in *.
  - destruct (Hk a w1) as (Hfs' & Hwp' & Hnow').
    split; [intros q Hq; rewrite (Hfs' q Hq); exact (Hfs q Hq)|].
    split; congruence.
  - split; [exact Hfs|]. split; assumption.
Qed.

Lemma confined_try_except {A} T (body : M A) (handler : exn -> M A) :
  confined T body -> (forall e, confined T (handler e)) ->
  confined T (try_except body handler).
Proof.
  intros Hb Hh w. unfold try_except.
  destruct (Hb w) as (Hfs & Hwp & Hnow).
  destruct (body w) as [[a|e] w1]; cbn [snd] in *.
  - split; [exact Hfs|]. split; assumption.
  - destruct (Hh e w1) as (Hfs' & Hwp' & Hnow').
    split; [intros q Hq; rewrite (Hfs' q Hq); exact (Hfs q Hq)|].
    split; congruence.
Qed.

Lemma confined_mono {A} T T' (m : M A) :
  (forall q, T q -> T' q) -> confined T m -> confined T' m.
Proof.
  intros Hsub Hm w. destruct (Hm w) as (Hfs & Hrest).
  split; [|exact Hrest]. intros q Hq. apply Hfs. intros HT. exact (Hq (Hsub q HT)).
Qed.

Lemma confined_for_each {A} T (xs : list A) (body : A -> M unit) :
  (forall x, x ∈ xs -> confined T (body x)) -> confined T (for_each xs body).
Proof.
  induction xs as [|x xs IH]; intros H; cbn [for_each].
  - apply confined_ret.
  - apply confined_bind; [apply H; left|].
    intros _. apply IH. intros y Hy. apply H. right. exact Hy.
Qed.

Ltac confined_step :=
  first
    [ apply confined_ret | apply confined_lift | apply confined_strftime_now
    | apply confined_image_open | apply confined_getsize
    | apply confined_np_load | apply confined_exists | apply confined_print
    | apply confined_bind; [|intros ?] ].

Lemma confined_binarizer T raw : confined T (binarizer raw).
Proof.
  unfold binarizer, binary_branch, non_binary_branch.
  destruct (_ =? _)%nat; repeat confined_step.
Qed.

Lemma confined_annotation_loop T contours :
  forall i annotation, confined T (annotation_loop i contours annotation).
Proof.
  induction contours as [|c rest IH]; intros i annotation; cbn [annotation_loop].
  - apply confined_ret.
  - repeat confined_step. apply IH.
Qed.

Lemma confined_convert png out :
  confined (eq (target_of png out)) (convert_mask_to_npy png out).
Proof.
  unfold convert_mask_to_npy, load_mask, pack_and_save, build_annotation.
  repeat first
    [ apply confined_binarizer | apply confined_annotation_loop
    | apply confined_np_save; reflexivity | confined_step ].
Qed.

Lemma confined_convert_and_verify png :
  confined (eq (target_of png None)) (convert_and_verify png).
Proof.
  unfold convert_and_verify.
  repeat first
    [ apply confined_convert
    | match goal with |- confined _ (if ?b then _ else _) => destruct b end
    | confined_step ].
Qed.

Lemma confined_process_path png :
  confined (eq (target_of png None)) (process_path png).
Proof.
  unfold process_path.
  repeat first
    [ apply confined_convert_and_verify
    | apply confined_try_except; [|intros ?]
    | match goal with |- confined _ (if ?b then _ else _) => destruct b end
    | confined_step ].
Qed.
End Confined.



(** X4. The default output name is never the input path, so a conversion
    under the default name, successful or not, leaves the image it read in
    place. *)
Theorem default_output_never_the_input (png_path : string) (w : World) :
  determine_output_path png_path None <> png_path
  /\ fs (convert_mask_to_npy png_path None w).2 !! png_path = fs w !! png_path.
Proof.
  split; [apply default_name_differs|].
  destruct (confined_convert png_path None w) as (Hfs & _).
  apply Hfs. rewrite default_target. apply default_name_differs.
Qed.

(** ** Failures of one conversion *)

(** X5. A conversion whose input is missing, or is not an image, raises on
    opening it: the only output is the loading line and no file, clock or
    protection changes.  (The driver's existence check only covers the
    first case.) *)
Theorem unreadable_input_fails_first
    (png_path : string) (output_path : option string) (w : World) :
  (fs w !! png_path = None ->
   convert_mask_to_npy png_path output_path w
   = (Raise (FileNotFoundError png_path), with_console w [OutLoading png_path]))
  /\ (forall bytes,
        fs w !! png_path = Some (DataFile bytes) ->
        convert_mask_to_npy png_path output_path w
        = (Raise (UnidentifiedImageError png_path),
           with_console w [OutLoading png_path])).
Proof.
  split.
  - intros H. unfold convert_mask_to_npy.
    rewrite bind_run, load_mask_run, H. reflexivity.
  - intros bytes H. unfold convert_mask_to_npy.
    rewrite bind_run, load_mask_run, H. reflexivity.
Qed.

Lemma unreadable_input_fails_first_witness :
  fs sample_world !! "samples/ROI 1_1 mask.png" = None
  /\ fs sample_world !! "samples/ROI 1_20.png" = Some (DataFile [x00; x01])
  /\ (convert_mask_to_npy "samples/ROI 1_1 mask.png" None sample_world).1
     = Raise (FileNotFoundError "samples/ROI 1_1 mask.png")
  /\ (convert_mask_to_npy "samples/ROI 1_20.png" None sample_world).1
     = Raise (UnidentifiedImageError "samples/ROI 1_20.png").
Proof.
  assert (H1 : fs sample_world !! "samples/ROI 1_1 mask.png" = None)
    by reflexivity.
  assert (H2 : fs sample_world !! "samples/ROI 1_20.png"
               = Some (DataFile [x00; x01])) by reflexivity.
  split; [exact H1|]. split; [exact H2|]. split.
  - rewrite (proj1 (unreadable_input_fails_first "samples/ROI 1_1 mask.png" None
                      sample_world) H1).
    reflexivity.
  - rewrite (proj2 (unreadable_input_fails_first "samples/ROI 1_20.png" None
                      sample_world) _ H2).
    reflexivity.
Defined.

(** What a conversion that raised has left behind. *)
Lemma convert_raise_cases png out w w1 e :
  convert_mask_to_npy png out w = (Raise e, w1) ->
  fs w1 = fs w
  \/ (e = FileNotFoundError (determine_output_path png out)
      /\ target_of png out <> determine_output_path png out
      /\ fs w !! determine_output_path png out = None
      /\ exists cs, fs w1 = files_after png out cs w).
Proof.
  intros Hrun.
  destruct (convert_outcome png out w)
    as [(_ & H)|[(bytes & _ & H)|[(size & raw & e' & lines & _ & _ & H)
       |[(size & raw & cs & lines & _ & _ & _ & H)
        |(size & raw & cs & lines & _ & _ & _ & H)]]]];
    rewrite H in Hrun;
    try (injection Hrun as _ <-; left; reflexivity).
  destruct (files_after png out cs w !! determine_output_path png out)
    as [f|] eqn:Hf; [discriminate|].
  injection Hrun as <- <-. right. cbn [fs].
  assert (Hne : target_of png out <> determine_output_path png out).
  { intros Heq. unfold files_after in Hf. fold (target_of png out) in Hf.
    rewrite Heq, lookup_insert_eq in Hf. discriminate. }
  split; [reflexivity|]. split; [exact Hne|]. split; [|exists cs; reflexivity].
  unfold files_after in Hf. fold (target_of png out) in Hf.
  rewrite lookup_insert_ne in Hf by exact Hne. exact Hf.
Qed.

Lemma convert_raise_default png w w1 e :
  convert_mask_to_npy png None w = (Raise e, w1) -> fs w1 = fs w.
Proof.
  intros Hrun.
  destruct (convert_raise_cases png None w w1 e Hrun) as [H|(_ & Hne & _)];
    [exact H|].
  exfalso. apply Hne, default_target.
Qed.

(** X6. A conversion that raises has written nothing, with one exception:
    when the output name does not end in [.npy] the record has been written
    under the extended name before the size query on the given name fails.
    Under a name that ends in [.npy], the default name included, a raised
    exception means no file has changed. *)
Theorem failed_conversion_writes_nothing
    (png_path : string) (output_path : option string) (w w1 : World) (e : exn) :
  convert_mask_to_npy png_path output_path w = (Raise e, w1) ->
  (fs w1 = fs w
   \/ (e = FileNotFoundError (determine_output_path png_path output_path)
       /\ target_of png_path output_path
          <> determine_output_path png_path output_path
       /\ fs w !! determine_output_path png_path output_path = None
       /\ exists cs, fs w1 = files_after png_path output_path cs w))
  /\ (target_of png_path output_path = determine_output_path png_path output_path ->
      fs w1 = fs w)
  /\ (output_path = None -> fs w1 = fs w).
Proof.
  intros Hrun.
  pose proof (convert_raise_cases png_path output_path w w1 e Hrun) as Hmain.
  split; [exact Hmain|].
  assert (Hsame : target_of png_path output_path
                  = determine_output_path png_path output_path -> fs w1 = fs w).
  { intros Heq. destruct Hmain as [H|(_ & Hne & _)]; [exact H|contradiction]. }
  split; [exact Hsame|].
  intros ->. apply Hsame, default_target.
Qed.

Lemma failed_conversion_writes_nothing_witness :
  (convert_mask_to_npy "samples/ROI 1_62.png" None sample_world).1
  = Raise (ValueError "Input array must be at least 2x2.")
  /\ fs (convert_mask_to_npy "samples/ROI 1_62.png" None sample_world).2
     = fs sample_world.
Proof.
  assert (Hres : (convert_mask_to_npy "samples/ROI 1_62.png" None sample_world).1
                 = Raise (ValueError "Input array must be at least 2x2."))
    by (vm_compute; reflexivity).
  split; [exact Hres|].
  destruct (convert_mask_to_npy "samples/ROI 1_62.png" None sample_world)
    as [r w1] eqn:Hrun.
  simpl in Hres. subst r.
  exact (proj2 (proj2 (failed_conversion_writes_nothing _ _ _ _ _ Hrun)) eq_refl).
Defined.

(** X7. With an explicit output name that lacks [.npy] and an older file
    already at that name, the call succeeds and returns the given name, but
    the file at that name is still the older one; the record is in the file
    with [.npy] appended. *)
Theorem explicit_path_returns_stale_file
    (png_path out : string) (w : World) (size : nat) (raw : ndarray scalar)
    (cs : list contour) (old : file) :
  fs w !! png_path = Some (ImageFile size raw) ->
  find_contours (threshold raw) = Ok cs ->
  endswith out ".npy" = false ->
  out +:+ ".npy" ∉ write_protected w ->
  fs w !! out = Some old ->
  exists w1,
    convert_mask_to_npy png_path (Some out) w = (Ok out, w1)
    /\ fs w1 !! out = Some old
    /\ fs w1 !! (out +:+ ".npy")
       = Some (DataFile (encode_npy (annotation_record (strftime (now w)) cs))).
Proof.
  intros Himg Hcs Hend Hw Hold. rewrite threshold_is_rule in Hcs.
  assert (Hname : npy_file_name out = out +:+ ".npy")
    by (unfold npy_file_name; rewrite Hend; reflexivity).
  destruct (convert_run png_path (Some out) w size raw cs Himg Hcs) as [lines Hrun].
  { cbn [determine_output_path]. rewrite Hname. exact Hw. }
  revert Hrun. unfold files_after. cbn [determine_output_path].
  rewrite Hname, lookup_insert_ne by apply append_suffix_differs.
  rewrite Hold. intros Hrun.
  eexists. split; [exact Hrun|]. cbn [fs].
  rewrite lookup_insert_ne by apply append_suffix_differs.
  rewrite lookup_insert_eq. split; [exact Hold|reflexivity].
Qed.

Lemma explicit_path_returns_stale_file_witness :
  fs stale_world !! "out" = Some (DataFile [x00; x01; x02])
  /\ exists w1,
       convert_mask_to_npy "samples/x.png" (Some "out") stale_world = (Ok "out", w1)
       /\ fs w1 !! "out" = Some (DataFile [x00; x01; x02]).
Proof.
  assert (Hold : fs stale_world !! "out" = Some (DataFile [x00; x01; x02]))
    by reflexivity.
  split; [exact Hold|].
  destruct (explicit_path_returns_stale_file "samples/x.png" "out" stale_world
              120 dot_image [dot_contour] (DataFile [x00; x01; x02]))
    as (w1 & Hrun & Hstale & _).
  - reflexivity.
  - vm_compute. reflexivity.
  - reflexivity.
  - simpl. apply not_elem_of_empty.
  - exact Hold.
  - exists w1. split; assumption.
Defined.

(** X8. Converting the same image again under the default name, with the
    clock unchanged, returns the same name and leaves the files exactly as
    the first conversion left them. *)
Theorem repeated_conversion_changes_nothing
    (png_path : string) (w w1 : World) (out : string) :
  convert_mask_to_npy png_path None w = (Ok out, w1) ->
  exists w2,
    convert_mask_to_npy png_path None w1 = (Ok out, w2) /\ fs w2 = fs w1.
Proof.
  intros Hrun.
  destruct (convert_outcome png_path None w)
    as [(_ & H)|[(bytes & _ & H)|[(size & raw & e' & lines & _ & _ & H)
       |[(size & raw & cs & lines & _ & _ & _ & H)
        |(size & raw & cs & lines & Himg & Hcs & Hw & H)]]]];
    rewrite H in Hrun; try discriminate.
  destruct (files_after png_path None cs w !! determine_output_path png_path None)
    as [f|] eqn:Hf; [|discriminate].
  injection Hrun as <- <-.
  set (w1 := mk_World (files_after png_path None cs w) (write_protected w) (now w)
               (console w ++ lines)).
  assert (Himg1 : fs w1 !! png_path = Some (ImageFile size raw)).
  { unfold w1, files_after. cbn [fs]. fold (target_of png_path None).
    rewrite lookup_insert_ne; [exact Himg|].
    rewrite default_target. apply default_name_differs. }
  destruct (convert_run png_path None w1 size raw cs Himg1 Hcs Hw) as [lines' Hrun'].
  assert (Hfiles : files_after png_path None cs w1 = files_after png_path None cs w).
  { unfold files_after, w1. cbn [fs now]. apply insert_insert_eq. }
  rewrite Hfiles, Hf in Hrun'.
  eexists. split; [exact Hrun'|reflexivity].
Qed.

Lemma repeated_conversion_changes_nothing_witness :
  (convert_mask_to_npy "samples/x.png" None sample_world).1 = Ok "x_seg.npy"
  /\ exists w2,
       convert_mask_to_npy "samples/x.png" None
         (convert_mask_to_npy "samples/x.png" None sample_world).2
       = (Ok "x_seg.npy", w2)
       /\ fs w2 = fs (convert_mask_to_npy "samples/x.png" None sample_world).2.
Proof.
  assert (Hres : (convert_mask_to_npy "samples/x.png" None sample_world).1
                 = Ok "x_seg.npy") by (vm_compute; reflexivity).
  split; [exact Hres|].
  destruct (convert_mask_to_npy "samples/x.png" None sample_world)
    as [r w1] eqn:Hrun.
  simpl in Hres. subst r.
  exact (repeated_conversion_changes_nothing _ _ _ _ Hrun).
Defined.

(** ** The verification step and the packer's output *)

Section Verification.
Implicit Types (w : World).

Lemma np_load_written file arr w :
  fs w !! file = Some (DataFile (encode_npy arr)) -> storable arr ->
  np_load file w = (Ok arr, w).
Proof.
  intros Hfile Harr. unfold np_load.
  rewrite Hfile, (decode_encode_npy arr Harr). reflexivity.
Qed.

(** After a successful conversion the rest of the [try] body cannot fail. *)
Lemma convert_and_verify_after_success png w out w1 :
  convert_mask_to_npy png None w = (Ok out, w1) ->
  exists size raw cs,
    fs w !! png = Some (ImageFile size raw)
    /\ find_contours (threshold raw) = Ok cs
    /\ fs w1 = <[out := DataFile (encode_npy (annotation_record (strftime (now w)) cs))]>
                 (fs w)
    /\ convert_and_verify png w
       = (Ok tt,
          with_console w1
            [OutSuccess png out; OutVerifying;
             OutLoadedShape [1; 4]%nat; OutLoadedDtype object_;
             OutNumAnnotations 1;
             OutTimestamp (VObj (PStr (strftime (now w))));
             OutAction (VObj (PStr "converted from PNG"));
             OutNumContours (length cs)]).
Proof.
  intros Hrun.
  destruct (convert_inv png None w out w1 Hrun)
    as (size & raw & cs & Himg & Hcs & Hout & _ & Hfs & _ & _).
  assert (Htarget : target_of png None = out)
    by (rewrite Hout; apply default_target).
  unfold files_after in Hfs. fold (target_of png None) in Hfs.
  rewrite Htarget in Hfs.
  exists size, raw, cs. rewrite threshold_is_rule.
  split; [exact Himg|]. split; [exact Hcs|]. split; [exact Hfs|].
  unfold convert_and_verify.
  rewrite bind_run, Hrun.
  rewrite bind_run. unfold print at 1.
  rewrite bind_run. unfold print at 1.
  rewrite bind_run.
  rewrite (np_load_written out (annotation_record (strftime (now w)) cs));
    [|cbn [fs with_console]; rewrite Hfs; apply lookup_insert_eq
     |apply annotation_record_storable].
  unfold annotation_record.
  unfold mbind, M_bind, bind, print, lift, mret, M_ret, ret.
  cbn [py_len py_getitem shape data nd_dtype Nat.ltb Nat.leb size_of foldr
       Nat.mul Nat.add take drop lookup list_lookup].
  rewrite !with_console_app, length_map. reflexivity.
Qed.

Lemma annotation_loop_transcript contours :
  forall i t l xs ys w, exists lines,
    annotation_loop i contours [t; l; PList xs; PList ys] w
    = (Ok [t; l; PList (xs ++ map x_coords_of contours);
           PList (ys ++ map y_coords_of contours)],
       with_console w lines)
    /\ length lines = length contours
    /\ (forall k c, contours !! k = Some c ->
          lines !! k = Some (OutContour (i + k + 1) (length c))).
Proof.
  induction contours as [|c rest IH]; intros i t l xs ys w.
  - exists []. simpl. rewrite !app_nil_r.
    split; [unfold with_console; rewrite app_nil_r; destruct w; reflexivity|].
    split; [reflexivity|]. intros k c H. destruct k; discriminate H.
  - destruct (IH (S i) t l (xs ++ [x_coords_of c]) (ys ++ [y_coords_of c])
                (with_console w [OutContour (i + 1) (length (x_coords_of c))]))
      as (lines & Hrest & Hlen & Hlines).
    exists (OutContour (i + 1) (length (x_coords_of c)) :: lines).
    split; [|split].
    + cbn [annotation_loop]. unfold mbind, M_bind, bind, lift, append_at; simpl.
      rewrite Hrest, with_console_app, <- !app_assoc. reflexivity.
    + simpl. rewrite Hlen. reflexivity.
    + intros [|k] c' Hc'.
      * injection Hc' as <-.
        change (Some (OutContour (i + 1) (length (x_coords_of c)))
                = Some (OutContour (i + 0 + 1) (length c))).
        rewrite (proj2 (coords_same_length c)). do 2 f_equal. lia.
      * change (lines !! k = Some (OutContour (i + S k + 1) (length c'))).
        change (rest !! k = Some c') in Hc'.
        rewrite (Hlines k c' Hc'). do 2 f_equal. lia.
Qed.
End Verification.

(** X9. After a successful conversion the verification of the driver
    cannot fail: the file reloads, and the lines it prints show one
    annotation, the timestamp and label that were packed, and as many
    contours as the conversion found.  The only file changed is the record
    written at the returned name. *)
Theorem verification_reports_what_was_written
    (png_path : string) (w w1 : World) (output_file : string) :
  convert_mask_to_npy png_path None w = (Ok output_file, w1) ->
  exists size raw cs,
    fs w !! png_path = Some (ImageFile size raw)
    /\ find_contours (threshold raw) = Ok cs
    /\ convert_and_verify png_path w
       = (Ok tt,
          with_console w1
            [OutSuccess png_path output_file; OutVerifying;
             OutLoadedShape [1; 4]%nat; OutLoadedDtype object_;
             OutNumAnnotations 1;
             OutTimestamp (VObj (PStr (strftime (now w))));
             OutAction (VObj (PStr "converted from PNG"));
             OutNumContours (length cs)]).
Proof.
  intros Hrun.
  destruct (convert_and_verify_after_success png_path w output_file w1 Hrun)
    as (size & raw & cs & Himg & Hcs & _ & Hverify).
  exists size, raw, cs. repeat split; assumption.
Qed.

Lemma verification_reports_what_was_written_witness :
  (convert_mask_to_npy "samples/x.png" None sample_world).1 = Ok "x_seg.npy"
  /\ (convert_and_verify "samples/x.png" sample_world).1 = Ok tt.
Proof.
  assert (Hres : (convert_mask_to_npy "samples/x.png" None sample_world).1
                 = Ok "x_seg.npy") by (vm_compute; reflexivity).
  split; [exact Hres|].
  destruct (convert_mask_to_npy "samples/x.png" None sample_world)
    as [r w1] eqn:Hrun.
  simpl in Hres. subst r.
  destruct (verification_reports_what_was_written _ _ _ _ Hrun)
    as (size & raw & cs & _ & _ & ->).
  reflexivity.
Defined.

(** X10. The packer prints exactly one line per contour, in contour order:
    the k-th line carries the one-based number k+1 and the number of points
    of the k-th contour. *)
Theorem packer_prints_one_line_per_contour
    (current_time : string) (contours : list contour) (w : World) :
  exists lines,
    build_annotation current_time contours w
    = (Ok (annotation_record current_time contours), with_console w lines)
    /\ length lines = length contours
    /\ (forall k c, contours !! k = Some c ->
          lines !! k = Some (OutContour (k + 1) (length c))).
Proof.
  destruct (annotation_loop_transcript contours 0 (PStr current_time)
              (PStr "converted from PNG") [] [] w)
    as (lines & Hloop & Hlen & Hlines).
  exists lines. split; [|split; [exact Hlen|exact Hlines]].
  unfold build_annotation, mbind, M_bind, bind. rewrite Hloop. reflexivity.
Qed.

Lemma packer_prints_one_line_per_contour_witness :
  [dot_contour; []] !! 1%nat = Some []
  /\ exists lines : list output,
       length lines = 2%nat /\ lines !! 1%nat = Some (OutContour 2 0).
Proof.
  split; [reflexivity|].
  destruct (packer_prints_one_line_per_contour "t" [dot_contour; []] empty_world)
    as (lines & _ & Hlen & Hlines).
  exists lines. split; [exact Hlen|].
  exact (Hlines 1%nat [] eq_refl).
Defined.

(** ** The batch as a whole *)

Section Batch.
Implicit Types (w : World).

Lemma emits_mono {A} (P Q : output -> Prop) (m : M A) :
  (forall o, P o -> Q o) -> emits P m -> emits Q m.
Proof.
  intros HPQ Hm w. destruct (Hm w) as (lines & Hc & Hl).
  exists lines. split; [exact Hc|]. eapply Forall_impl; [exact Hl|exact HPQ].
Qed.

Lemma emits_process_path p : emits (fun _ => True) (process_path p).
Proof.
  unfold process_path.
  repeat first
    [ apply emits_print; exact I
    | apply emits_exists
    | apply emits_bind; [|intros ?] ].
  destruct (negb _); [apply emits_print; exact I|].
  apply emits_try_except.
  - apply (emits_mono not_processing); [intros; exact I|].
    apply emits_convert_and_verify.
  - intros e. apply emits_bind; [|intros ?]; apply emits_print; exact I.
Qed.

Lemma for_each_console paths :
  forall w, exists lines,
    console (for_each paths process_path w).2 = console w ++ lines.
Proof.
  induction paths as [|p paths IH]; intros w.
  - exists []. cbn. rewrite app_nil_r. reflexivity.
  - cbn [for_each]. rewrite bind_run.
    destruct (emits_process_path p w) as (l1 & Hc1 & _).
    destruct (process_path p w) as [[[]|e] w1]; cbn [snd] in *.
    + destruct (IH w1) as (l2 & Hc2). exists (l1 ++ l2).
      rewrite Hc2, Hc1, app_assoc. reflexivity.
    + exists l1. exact Hc1.
Qed.

(** One iteration, in terms of the files. *)
Lemma process_path_files p w :
  exists w',
    process_path p w = (Ok tt, w')
    /\ (fs w' = fs w
        \/ exists size raw cs,
             fs w !! p = Some (ImageFile size raw)
             /\ find_contours (threshold raw) = Ok cs
             /\ fs w'
                = <[determine_output_path p None :=
                      DataFile (encode_npy (annotation_record (strftime (now w)) cs))]>
                    (fs w)).
Proof.
  destruct (fs w !! p) as [f|] eqn:Hf.
  - rewrite process_existing_path by (rewrite Hf; eauto).
    set (w0 := with_console w [OutRule; OutProcessing p; OutRule]).
    destruct (convert_mask_to_npy p None w0) as [[out|e] w1] eqn:Hrun.
    + destruct (convert_and_verify_after_success p w0 out w1 Hrun)
        as (size & raw & cs & Himg & Hcs & Hfs & ->).
      eexists. split; [reflexivity|]. right.
      destruct (convert_inv p None w0 out w1 Hrun)
        as (_ & _ & _ & _ & _ & Hout & _).
      exists size, raw, cs. split; [rewrite <- Hf; exact Himg|].
      split; [exact Hcs|].
      cbn [fs with_console]. rewrite Hfs, Hout. reflexivity.
    + assert (Hverify : convert_and_verify p w0 = (Raise e, w1))
        by (unfold convert_and_verify; rewrite bind_run, Hrun; reflexivity).
      rewrite Hverify. eexists. split; [reflexivity|]. left.
      cbn [fs with_console]. exact (convert_raise_default p w0 w1 e Hrun).
  - rewrite process_missing_path by exact Hf.
    eexists. split; [reflexivity|]. left. reflexivity.
Qed.
End Batch.

(** X11. One iteration of the driver either leaves every file as it was
    (the path is missing, or the conversion raised), or adds exactly one
    file: the record of the contours found in that image, under the default
    name. *)
Theorem iteration_writes_one_record_or_nothing (png_path : string) (w : World) :
  exists w',
    process_path png_path w = (Ok tt, w')
    /\ (fs w' = fs w
        \/ exists size raw cs,
             fs w !! png_path = Some (ImageFile size raw)
             /\ find_contours (threshold raw) = Ok cs
             /\ fs w'
                = <[determine_output_path png_path None :=
                      DataFile (encode_npy (annotation_record (strftime (now w)) cs))]>
                    (fs w)).
Proof. apply process_path_files. Qed.

(** X12. The batch changes no file other than the default output names of
    its paths: every other file, the input images included when none of
    them bears such a name, is the same after the run. *)
Theorem batch_changes_only_output_names
    (paths : list string) (w : World) (q : string) :
  (forall p, p ∈ paths -> q <> determine_output_path p None) ->
  fs (run_batch paths w).2 !! q = fs w !! q.
Proof.
  intros Hq.
  assert (Hconf : confined (fun t => exists p, p ∈ paths /\ t = target_of p None)
                    (run_batch paths)).
  { unfold run_batch.
    apply confined_bind; [|intros _].
    - apply confined_for_each. intros p Hp.
      apply (confined_mono (eq (target_of p None))); [|apply confined_process_path].
      intros t <-. exists p. split; [exact Hp|reflexivity].
    - apply confined_bind; [apply confined_print|intros _].
      apply confined_bind; [apply confined_print|intros _].
      apply confined_print. }
  destruct (Hconf w) as (Hfs & _). apply Hfs.
  intros (p & Hp & ->). apply (Hq p Hp). apply default_target.
Qed.

Lemma batch_changes_only_output_names_witness :
  (forall p, p ∈ png_paths -> "samples/bright.png" <> determine_output_path p None)
  /\ fs (main sample_world).2 !! "samples/bright.png"
     = fs sample_world !! "samples/bright.png".
Proof.
  assert (H : forall p, p ∈ png_paths ->
              "samples/bright.png" <> determine_output_path p None).
  { intros p Hp Heq.
    pose proof (default_name_no_sep p) as Hno. rewrite <- Heq in Hno.
    vm_compute in Hno. discriminate Hno. }
  split; [exact H|].
  exact (batch_changes_only_output_names png_paths sample_world
           "samples/bright.png" H).
Defined.

(** X13. The batch always ends by printing the completion banner, also
    when every path was missing or failed: the banner says that the loop is
    over, not that a conversion succeeded. *)
Theorem batch_always_prints_completion (paths : list string) (w : World) :
  exists lines,
    console (run_batch paths w).2
    = console w ++ lines ++ [OutRule; OutAllCompleted; OutRule].
Proof.
  destruct (for_each_process_path paths w) as (w1 & Hloop & _).
  destruct (for_each_console paths w) as (lines & Hc).
  rewrite Hloop in Hc. cbn [snd] in Hc.
  exists lines. unfold run_batch. rewrite bind_run, Hloop.
  unfold mbind, M_bind, bind, print. cbn [snd console with_console].
  rewrite Hc, <- !app_assoc. reflexivity.
Qed.

(** X14. The mask, and with it everything computed from it, depends only
    on which samples are positive: two images of the same shape with the
    same positive positions, such as a 0/255 mask and its 0/1 version, are
    binarized to the same mask. *)
Theorem mask_depends_only_on_sign (raw1 raw2 : ndarray scalar) (w : World) :
  shape raw1 = shape raw2 ->
  map gt_zero (data raw1) = map gt_zero (data raw2) ->
  threshold raw1 = threshold raw2
  /\ (binarizer raw1 w).1 = (binarizer raw2 w).1
  /\ (forall png_path output_path w',
        (pack_and_save png_path output_path (threshold raw1) w')
        = (pack_and_save png_path output_path (threshold raw2) w')).
Proof.
  intros Hshape Hsign.
  assert (Heq : spec_binarize raw1 = spec_binarize raw2).
  { unfold spec_binarize. rewrite Hshape. f_equal.
    change threshold_rule with (fun v => SInt (if gt_zero v then 1 else 0)).
    rewrite <- (map_map gt_zero (fun b : bool => SInt (if b then 1 else 0))).
    rewrite <- (map_map gt_zero (fun b : bool => SInt (if b then 1 else 0))
                  (data raw2)).
    rewrite Hsign. reflexivity. }
  rewrite !threshold_is_rule.
  split; [exact Heq|]. split.
  - destruct (binarizer_run raw1 w) as [l1 ->].
    destruct (binarizer_run raw2 w) as [l2 ->]. simpl. rewrite Heq. reflexivity.
  - intros png out w'. rewrite Heq. reflexivity.
Qed.

Lemma mask_depends_only_on_sign_witness :
  threshold dot_image
  = threshold (mk_ndarray bool_ [3; 3]%nat
                 (map SBool [false; false; false; false; true; false;
                             false; false; false])).
Proof.
  apply (mask_depends_only_on_sign dot_image _ empty_world); reflexivity.
Defined.


